(** * FBO classifier: keyword scoring core ([classifier_core.py])

    A shallow embedding of the scoring core of the classifier and the
    proofs of its specified properties.

    Modelling choices.
    - A Python [str] is a [string] whose characters are the code points
      below 256; [lower] and [isspace] are the Unicode ones on that range.
    - A Python [int] is a [Z].
    - In the detectors a Python [float] is read as an exact rational
      ([Q]): every raw score is a keyword count, or a count plus three
      tenths of a count, and a confidence is one division and one
      multiplication of such values; equality of floats is [Qeq].
      [normalize_scores] is also given on the binary64 floats themselves
      (module [F64]), where rounding and overflow are those of Python.
    - A Python [dict] is an association list in insertion order (the code
      relies on that order when it takes [max] over [items()]).
    - An uncaught Python exception is the [Raise] case of the [py] monad. *)

From Stdlib Require Import String Ascii List Bool ZArith QArith Qabs Qminmax Lia Lqa.
From Stdlib Require Import Permutation.
From Stdlib Require PrimFloat.
Import ListNotations.

Local Open Scope string_scope.

(** ** Exceptions *)

Inductive exn : Type :=
| KeyError (key : string)
| ValueError.

Inductive py (A : Type) : Type :=
| Ok (a : A)
| Raise (e : exn).

Arguments Ok {A} a.
Arguments Raise {A} e.

Definition bind {A B : Type} (m : py A) (k : A -> py B) : py B :=
  match m with
  | Ok a => k a
  | Raise e => Raise e
  end.

Notation "x <- m ;; k" := (bind m (fun x => k))
  (at level 61, m at next level, right associativity).
Notation "' p <- m ;; k" := (bind m (fun x => let p := x in k))
  (at level 61, p pattern, m at next level, right associativity).

(** ** Strings *)

Module PyStr.

(** [c.lower()] on one character: the letters A to Z and the accented
    capitals from 192 to 222, the multiplication sign 215 apart, move up
    by 32. *)
Definition lower_char (c : ascii) : ascii :=
  let n := nat_of_ascii c in
  if ((65 <=? n)%nat && (n <=? 90)%nat)
     || ((192 <=? n)%nat && (n <=? 222)%nat && negb (n =? 215)%nat)
  then ascii_of_nat (n + 32)
  else c.

(** [s.lower()] *)
Fixpoint lower (s : string) : string :=
  match s with
  | EmptyString => EmptyString
  | String c s' => String (lower_char c) (lower s')
  end.

(** [s.startswith(kw)] *)
Fixpoint startswith (s kw : string) {struct kw} : bool :=
  match kw with
  | EmptyString => true
  | String k kw' =>
      match s with
      | EmptyString => false
      | String c s' => Ascii.eqb c k && startswith s' kw'
      end
  end.

(** [kw in s] *)
Fixpoint contains (s kw : string) : bool :=
  startswith s kw ||
  match s with
  | EmptyString => false
  | String _ s' => contains s' kw
  end.

(** The left-to-right scan of [s.count(kw)] for a non-empty [kw]:
    [skip] characters of a match just counted are still to be passed
    over, so that matches do not overlap. *)
Fixpoint count_from (kw : string) (skip : nat) (s : string) : nat :=
  match s with
  | EmptyString => 0
  | String _ s' =>
      match skip with
      | S k => count_from kw k s'
      | O =>
          if startswith s kw
          then S (count_from kw (Nat.pred (String.length kw)) s')
          else count_from kw 0 s'
      end
  end.

(** [s.count(kw)]: the number of non-overlapping occurrences; for the
    empty [kw] Python answers [len(s) + 1]. *)
Definition count (s kw : string) : Z :=
  match kw with
  | EmptyString => Z.of_nat (String.length s) + 1
  | String _ _ => Z.of_nat (count_from kw 0 s)
  end.

(** [c.isspace()]: the white space that [strip] removes. *)
Definition isspace (c : ascii) : bool :=
  let n := nat_of_ascii c in
  ((9 <=? n)%nat && (n <=? 13)%nat)
  || ((28 <=? n)%nat && (n <=? 32)%nat)
  || (n =? 133)%nat
  || (n =? 160)%nat.

(** [s.lstrip()] *)
Fixpoint lstrip (s : string) : string :=
  match s with
  | EmptyString => EmptyString
  | String c s' => if isspace c then lstrip s' else s
  end.

(** [s.rstrip()] *)
Fixpoint rstrip (s : string) : string :=
  match s with
  | EmptyString => EmptyString
  | String c s' =>
      match rstrip s' with
      | EmptyString => if isspace c then EmptyString else String c EmptyString
      | r => String c r
      end
  end.

(** [s.strip()] *)
Definition strip (s : string) : string := rstrip (lstrip s).

(** Truth value of a string: [bool(s)]. *)
Definition truthy (s : string) : bool :=
  match s with
  | EmptyString => false
  | String _ _ => true
  end.

End PyStr.

(** ** Match counter *)

(** [count_matches(text, keywords)] *)
Definition count_matches (text : string) (keywords : list string) : Z :=
  fold_left
    (fun total kw =>
       if PyStr.contains text kw then (total + PyStr.count text kw)%Z else total)
    keywords 0%Z.

(** What one keyword adds to the running total of [count_matches]. *)
Definition hits (text kw : string) : Z :=
  if PyStr.contains text kw then PyStr.count text kw else 0%Z.

(** ** Floats and dicts *)

Local Open Scope Q_scope.

(** [float(n)] for an [int] *)
Definition float (n : Z) : Q := inject_Z n.

(** [a > b] and [a == b] on floats *)
Definition Qgtb (a b : Q) : bool := negb (Qle_bool a b).
Definition Qeqb (a b : Q) : bool := Qeq_bool a b.

(** A [Dict[str, float]], in insertion order. *)
Definition dict : Type := list (string * Q).

(** [d.get(k, default)] *)
Fixpoint dict_get (d : dict) (k : string) (default : Q) : Q :=
  match d with
  | [] => default
  | (k', v) :: d' => if String.eqb k' k then v else dict_get d' k default
  end.

(** [d[k]] *)
Fixpoint dict_getitem (d : dict) (k : string) : py Q :=
  match d with
  | [] => Raise (KeyError k)
  | (k', v) :: d' => if String.eqb k' k then Ok v else dict_getitem d' k
  end.

(** [d[k] = v]: an existing key keeps its place, a new key goes last. *)
Fixpoint dict_set (d : dict) (k : string) (v : Q) : dict :=
  match d with
  | [] => [(k, v)]
  | (k', v') :: d' =>
      if String.eqb k' k then (k', v) :: d' else (k', v') :: dict_set d' k v
  end.

(** [d[k] += x] *)
Definition dict_iadd (d : dict) (k : string) (x : Q) : py dict :=
  v <- dict_getitem d k ;;
  Ok (dict_set d k (v + x)).

(** [d.keys()] and [d.values()] *)
Definition dict_keys (d : dict) : list string := map fst d.
Definition dict_values (d : dict) : list Q := map snd d.

(** [sum(vs)] *)
Definition Qsum (vs : list Q) : Q := fold_left Qplus vs 0.

(** The scan of [max(items, key=lambda x: x[1])]: a later item replaces
    the current one only when its value is strictly greater. *)
Fixpoint max_from (best : string * Q) (rest : list (string * Q)) : string * Q :=
  match rest with
  | [] => best
  | x :: rest' =>
      if Qgtb (snd x) (snd best) then max_from x rest' else max_from best rest'
  end.

(** [max(d.items(), key=lambda x: x[1])] *)
Definition max_by_value (d : dict) : py (string * Q) :=
  match d with
  | [] => Raise ValueError
  | x :: rest => Ok (max_from x rest)
  end.

(** ** Score normalizer *)

(** [float(sum(v for v in scores.values() if v > 0))] *)
Definition positive_total (scores : dict) : Q :=
  Qsum (filter (fun v => Qgtb v 0) (dict_values scores)).

(** [normalize_scores(scores)] *)
Definition normalize_scores (scores : dict) : dict :=
  let total := positive_total scores in
  if Qle_bool total 0
  then map (fun kv => (fst kv, 0)) scores
  else map (fun kv => (fst kv, (snd kv / total) * 100)) scores.

(** ** Dict objects in a store

    Python passes a dict by reference.  A store holds the dict objects,
    a reference is a position in the store, and a statement that reads or
    writes a dict is a step on the store.  A step on a reference that is
    not in the store has no result. *)

Section ObjectStore.

Variable V : Type.

(** A dict object: its items in insertion order. *)
Definition obj : Type := list (string * V).

Definition store : Type := list obj.

(** [d[k]] for a key that may be missing *)
Fixpoint obj_get (d : obj) (k : string) : option V :=
  match d with
  | [] => None
  | (k', v) :: d' => if String.eqb k' k then Some v else obj_get d' k
  end.

(** [d[k] = v] on the items of an object *)
Fixpoint obj_set (d : obj) (k : string) (v : V) : obj :=
  match d with
  | [] => [(k, v)]
  | (k', v') :: d' =>
      if String.eqb k' k then (k', v) :: d' else (k', v') :: obj_set d' k v
  end.

(** The store with the object at [r] replaced by [d]. *)
Fixpoint store_put (h : store) (r : nat) (d : obj) : store :=
  match h, r with
  | [], _ => []
  | _ :: h', O => d :: h'
  | x :: h', S r' => x :: store_put h' r' d
  end.

Definition step (A : Type) : Type := store -> option (A * store).

Definition done {A : Type} (a : A) : step A := fun h => Some (a, h).

Definition and_then {A B : Type} (m : step A) (k : A -> step B) : step B :=
  fun h =>
    match m h with
    | Some (a, h') => k a h'
    | None => None
    end.

(** [{}]: a new empty dict, at a reference that was not in use. *)
Definition new_dict : step nat :=
  fun h => Some (List.length h, (h ++ [[]])%list).

(** Reading the items of the dict at [r] ([items()], [values()] or
    iteration over the keys). *)
Definition load (r : nat) : step obj :=
  fun h =>
    match nth_error h r with
    | Some d => Some (d, h)
    | None => None
    end.

(** [r[k] = v] *)
Definition setitem (r : nat) (k : string) (v : V) : step unit :=
  fun h =>
    match nth_error h r with
    | Some d => Some (tt, store_put h r (obj_set d k v))
    | None => None
    end.

(** The insertions of a dict comprehension into the dict at [r], one per
    item, in order. *)
Fixpoint fill (r : nat) (kvs : list (string * V)) : step unit :=
  match kvs with
  | [] => done tt
  | (k, v) :: kvs' => and_then (setitem r k v) (fun _ => fill r kvs')
  end.

End ObjectStore.

Arguments obj_get {V} d k.
Arguments obj_set {V} d k v.
Arguments store_put {V} h r d.
Arguments done {V A} a.
Arguments and_then {V A B} m k.
Arguments new_dict {V}.
Arguments load {V} r.
Arguments setitem {V} r k v.
Arguments fill {V} r kvs.

(** ** The normalizer over an arithmetic

    [normalize_scores] uses the numbers through [0], [100], [+], [/],
    [*], [>] and [<=] only.  Written over these operations it can be read
    with the exact rationals, as [normalize_scores] above, and with the
    binary64 floats of Python. *)

Section Normalizer.

Variable num : Type.
Variables zero hundred : num.
Variables add div mul : num -> num -> num.
Variables gtb leb : num -> num -> bool.

(** [float(sum(v for v in scores.values() if v > 0))] *)
Definition positive_total_of (scores : obj num) : num :=
  fold_left add (filter (fun v => gtb v zero) (map snd scores)) zero.

(** [normalize_scores(scores)], as a function of the items *)
Definition normalize_scores_of (scores : obj num) : obj num :=
  let total := positive_total_of scores in
  if leb total zero
  then map (fun kv => (fst kv, zero)) scores
  else map (fun kv => (fst kv, mul (div (snd kv) total) hundred)) scores.

(** [normalize_scores(scores)], as the statements it runs on the store:
    it reads the dict at the reference [scores], and each of its two
    comprehensions makes a new dict and inserts one item per key. *)
Definition normalize_scores_steps (scores : nat) : step num nat :=
  and_then (load scores) (fun items =>
  let total := positive_total_of items in
  if leb total zero
  then
    and_then new_dict (fun out =>
    and_then (fill out (map (fun kv => (fst kv, zero)) items)) (fun _ =>
    done out))
  else
    and_then new_dict (fun out =>
    and_then (fill out (map (fun kv => (fst kv, mul (div (snd kv) total) hundred))
                            items)) (fun _ =>
    done out))).

End Normalizer.

(** ** The normalizer on binary64 floats *)

Module F64.

Import PrimFloat.

(** A [Dict[str, float]] with the floats of Python. *)
Definition fdict : Type := obj float.

Definition zero : float := 0%float.
Definition hundred : float := 100%float.

(** [a > b] *)
Definition gtb (a b : float) : bool := ltb b a.

Definition positive_total64 (scores : fdict) : float :=
  positive_total_of float zero add gtb scores.

(** [normalize_scores(scores)] *)
Definition normalize_scores64 (scores : fdict) : fdict :=
  normalize_scores_of float zero hundred add div mul gtb leb scores.

Definition normalize_scores_steps64 (scores : nat) : step float nat :=
  normalize_scores_steps float zero hundred add div mul gtb leb scores.

(** [sum(d.values())] *)
Definition total_of_values (d : fdict) : float :=
  fold_left add (map snd d) zero.

(** [abs(s - 100.0) <= 1e-6], with the double nearest to [1e-6]. *)
Definition within_tolerance (s : float) : bool :=
  leb (abs (s - hundred)) 0x1.0c6f7a0b5ed8dp-20%float.

(** The formula the specification gives for a normalized value, with the
    raw value clamped at zero: [(max(v, 0) / total) * 100.0]. *)
Definition clamped_share (v total : float) : float :=
  ((if ltb zero v then v else zero) / total * hundred)%float.

Definition minus_one : float := (-1)%float.
Definition three : float := 3%float.

(** [{"a": 1.0, "b": -1.0}] *)
Definition negative_scores : fdict := [("a", 1%float); ("b", minus_one)].

(** [{"a": 1e308, "b": 1e308}], with the double nearest to [1e308]. *)
Definition huge_scores : fdict :=
  [("a", 0x1.1ccf385ebc8ap+1023%float); ("b", 0x1.1ccf385ebc8ap+1023%float)].

(** [{"x": 1.0, "y": 3.0}] *)
Definition small_scores : fdict := [("x", 1%float); ("y", three)].

End F64.

(** ** Keyword configs *)

Definition RELIGION_KEYWORDS : list (string * list string) :=
  [ ("Islam",
      [ "mosque"; "masjid"; "islamic"; "muslim"; "ummah";
        "zakat"; "sadaqa"; "sadaqah"; "waqf"; "ramadan";
        "eid"; "qurbani"; "udhiyah"; "fidyah"; "kaffarah" ]);
    ("Christianity",
      [ "church"; "parish"; "diocese"; "cathedral"; "chapel";
        "ministry"; "ministries"; "christian"; "catholic";
        "orthodox"; "baptist"; "lutheran"; "pentecostal";
        "evangelical"; "jesus"; "christ"; "gospel" ]);
    ("Judaism",
      [ "synagogue"; "shul"; "yeshiva"; "yeshivah"; "temple";
        "jewish"; "judaism"; "tzedakah"; "tzedaka"; "tzedokah";
        "maaser"; "ma'aser"; "high holidays"; "rosh hashanah";
        "yom kippur"; "sukkot"; "simchat torah" ]);
    ("Multi-faith",
      [ "interfaith"; "inter faith"; "inter-faith";
        "multi-faith"; "multi faith";
        "inter faith network"; "multi-faith network" ]) ].

Definition GENERIC_FAITH_KEYWORDS : list string :=
  [ "faith-based"; "faith based"; "religious organization";
    "religious non-profit"; "religious nonprofit";
    "worship"; "spiritual community"; "congregation";
    "house of worship"; "faith communities"; "faith community" ].

Definition WORSHIP_PLACE_KEYWORDS : list string :=
  [ "church"; "parish"; "diocese"; "cathedral"; "chapel";
    "mosque"; "masjid"; "synagogue"; "shul"; "temple";
    "congregation"; "house of worship" ].

Definition WORSHIP_PRACTICE_KEYWORDS : list string :=
  [ "worship service"; "worship services"; "sunday service";
    "mass"; "liturgy"; "prayer service"; "daily prayers";
    "friday prayer"; "jummah"; "shabbat"; "shabbos" ].

Definition GLOBAL_NGO_KEYWORDS : list string :=
  [ "relief"; "foundation"; "international"; "global";
    "aid"; "charity"; "humanitarian"; "development";
    "mission"; "missions"; "ministries"; "ngo"; "non-profit";
    "nonprofit"; "organisation"; "organization"; "network" ].

Definition LOCAL_COMMUNITY_KEYWORDS : list string :=
  [ "community center"; "community centre"; "family services";
    "food bank"; "food pantry"; "soup kitchen"; "shelter";
    "clinic"; "school"; "youth group"; "local community";
    "serving the community of" ].

Definition INACTIVE_PHRASES : list string :=
  [ "has now closed";
    "has closed";
    "ceased operations";
    "ceased to operate";
    "no longer operating";
    "no longer exists";
    "has been wound up";
    "has now been wound up";
    "this organisation has closed";
    "this organization has closed";
    "was dissolved";
    "has been dissolved";
    "has now been dissolved";
    "dissolved on" ].

Definition ARCHIVE_PHRASES : list string :=
  [ "this website is an archive";
    "this site is an archive";
    "this site is no longer updated";
    "this website is no longer updated";
    "for historical reference only";
    "archived version of the site" ].

(** The two phrase lists local to [detect_type]. *)
Definition origin_keywords : list string :=
  [ "founded by the catholic church";
    "founded by the church";
    "founded by the methodist church";
    "founded by the presbyterian church";
    "founded by the episcopal church";
    "founded by the lutheran church";
    "founded by the anglican church";
    "jesuit university";
    "jesuit college";
    "sponsored by the church";
    "sponsored by the diocese";
    "owned by the church";
    "catholic health system";
    "christian health system";
    "faith-based hospital" ].

Definition community_keywords : list string :=
  [ "friends of"; "supporting the work of"; "in partnership with synagogues";
    "in partnership with churches"; "supported by congregations";
    "supported by parishes"; "supported by local churches";
    "supported by mosques"; "supported by the jewish community";
    "supported by the muslim community"; "supported by the christian community" ].

(** ** Religion detection *)

(** [f"{name.lower()} {text or ''}"] *)
Definition combined_text (name text : string) : string :=
  PyStr.lower name ++ " " ++ text.

(** The loop filling [scores] from [RELIGION_KEYWORDS.items()]. *)
Definition religion_scores (combined : string) : dict :=
  fold_left
    (fun scores rk =>
       dict_set scores (fst rk) (float (count_matches combined (snd rk))))
    RELIGION_KEYWORDS [].

Definition main_rels : list string := ["Islam"; "Christianity"; "Judaism"].

(** [{r: scores.get(r, 0.0) for r in main_rels}] *)
Definition main_scores (scores : dict) : dict :=
  map (fun r => (r, dict_get scores r 0)) main_rels.

(** The test on the name that guards the forced Multi-faith label. *)
Definition name_has_marker (name : string) : bool :=
  PyStr.contains (PyStr.lower name) "interfaith"
  || PyStr.contains (PyStr.lower name) "multi-faith"
  || PyStr.contains (PyStr.lower name) "multi faith".

(** [RELIGION_KEYWORDS[rel]] *)
Definition keywords_of (rel : string) : list string :=
  match find (fun rk => String.eqb (fst rk) rel) RELIGION_KEYWORDS with
  | Some rk => snd rk
  | None => []
  end.

(** The raw score that the loop stores under [rel]. *)
Definition religion_count (combined rel : string) : Q :=
  float (count_matches combined (keywords_of rel)).

(** [generic_score], [multi_score] and the pair
    [(max_main_rel, max_main_val)] of [detect_religion]. *)
Definition generic_score (combined : string) : Q :=
  float (count_matches combined GENERIC_FAITH_KEYWORDS).

Definition multi_score (scores : dict) : Q := dict_get scores "Multi-faith" 0.

Definition max_main (scores : dict) : py (string * Q) :=
  max_by_value (main_scores scores).

(** [detect_religion(text, name)] *)
Definition detect_religion (text name : string) : py (string * dict * Q) :=
  let combined := combined_text name text in
  let scores := religion_scores combined in
  let generic_score := generic_score combined in
  let multi_score := multi_score scores in
  top <- max_main scores ;;
  let max_main_rel := fst top in
  let max_main_val := snd top in
  if Qeqb max_main_val 0 && Qeqb multi_score 0 && Qeqb generic_score 0 then
    Ok ("Other/Unknown", scores, 0)
  else if name_has_marker name then
    let scores :=
      if Qeqb multi_score 0 then dict_set scores "Multi-faith" 1 else scores in
    let norm := normalize_scores scores in
    Ok ("Multi-faith", scores, dict_get norm "Multi-faith" 80)
  else if Qle_bool 2 max_main_val || Qgtb max_main_val multi_score then
    let norm := normalize_scores scores in
    Ok (max_main_rel, scores, dict_get norm max_main_rel 0)
  else if Qgtb multi_score 0 && Qeqb max_main_val 0 then
    let norm := normalize_scores scores in
    Ok ("Multi-faith", scores, dict_get norm "Multi-faith" 0)
  else if Qeqb max_main_val 0 && Qgtb generic_score 0 then
    let scores := dict_set scores "GenericFaith" generic_score in
    let norm := normalize_scores scores in
    Ok ("Other/Unknown", scores, dict_get norm "Other/Unknown" 0)
  else
    let norm := normalize_scores scores in
    Ok (max_main_rel, scores, dict_get norm max_main_rel 0).

(** ** Type detection *)

(** The markers of the one-off FBCore bonus. *)
Definition core_markers : list string :=
  ["parish"; "diocese"; "cathedral"; "chapel"].

(** [core_hits] as it stands when it is added to the FBCore accumulator. *)
Definition core_hits (combined : string) : Z :=
  let hits :=
    (count_matches combined WORSHIP_PLACE_KEYWORDS
     + count_matches combined WORSHIP_PRACTICE_KEYWORDS)%Z in
  if existsb (fun w => PyStr.contains combined w) core_markers
  then (hits + 2)%Z
  else hits.

(** [religion in {"Christianity", "Islam", "Judaism", "Multi-faith"}] *)
Definition is_named_religion (religion : string) : bool :=
  existsb (String.eqb religion) ["Christianity"; "Islam"; "Judaism"; "Multi-faith"].

(** [float(comm_hits)]: an [int] count, to which the weighted NGO count
    is added for a named religion. *)
Definition comm_hits (combined religion : string) : Q :=
  let hits :=
    (count_matches combined LOCAL_COMMUNITY_KEYWORDS
     + count_matches combined community_keywords)%Z in
  if is_named_religion religion
  then float hits + float (count_matches combined GLOBAL_NGO_KEYWORDS) * (3 # 10)
  else float hits.

(** [all(v == 0 for k, v in scores.items() if k != "Not-FB")] *)
Definition all_but_notfb_zero (scores : dict) : bool :=
  forallb (fun kv => Qeqb (snd kv) 0)
          (filter (fun kv => negb (String.eqb (fst kv) "Not-FB")) scores).

(** The four accumulators as they stand after the three [+=] and before
    the Not-FB fallback. *)
Definition type_accumulators (combined religion : string) : dict :=
  [ ("FBCore", 0 + float (core_hits combined));
    ("FBOrigin", 0 + float (count_matches combined origin_keywords));
    ("FBCommunity", 0 + comm_hits combined religion);
    ("Not-FB", 0) ].

(** [detect_type(text, name, religion)] *)
Definition detect_type (text name religion : string) : py (string * dict * Q) :=
  let combined := combined_text name text in
  let scores : dict :=
    [("FBCore", 0); ("FBOrigin", 0); ("FBCommunity", 0); ("Not-FB", 0)] in
  scores <- dict_iadd scores "FBCore" (float (core_hits combined)) ;;
  scores <- dict_iadd scores "FBOrigin"
              (float (count_matches combined origin_keywords)) ;;
  scores <- dict_iadd scores "FBCommunity" (comm_hits combined religion) ;;
  let scores :=
    if all_but_notfb_zero scores then dict_set scores "Not-FB" 1 else scores in
  best <- max_by_value scores ;;
  let best_type := fst best in
  let norm := normalize_scores scores in
  let type_conf := dict_get norm best_type 0 in
  Ok (best_type, scores, type_conf).

(** ** Activity status *)

(** [inactive_hits + archive_hits] *)
Definition inactive_total (combined : string) : Z :=
  (count_matches combined (map PyStr.lower INACTIVE_PHRASES)
   + count_matches combined (map PyStr.lower ARCHIVE_PHRASES))%Z.

(** [detect_activity(text, name)] *)
Definition detect_activity (text name : string) : py (string * dict * Q) :=
  let combined := combined_text name text in
  let inactive_hits := count_matches combined (map PyStr.lower INACTIVE_PHRASES) in
  let archive_hits := count_matches combined (map PyStr.lower ARCHIVE_PHRASES) in
  let scores : dict :=
    [ ("Inactive", float (inactive_hits + archive_hits));
      ("Likely active", 0);
      ("Unknown", 0) ] in
  inactive <- dict_getitem scores "Inactive" ;;
  let '(scores, status) :=
    if Qgtb inactive 0 then (scores, "Inactive")
    else if PyStr.truthy (PyStr.strip combined)
         then (dict_set scores "Likely active" 1, "Likely active")
         else (dict_set scores "Unknown" 1, "Unknown") in
  let norm := normalize_scores scores in
  let act_conf := dict_get norm status 0 in
  Ok (status, scores, act_conf).

(** ** Public entrypoint *)

Record confidences : Type := {
  conf_type : Q;
  conf_religion : Q;
  conf_activity : Q
}.

Record score_maps : Type := {
  scores_type : dict;
  scores_religion : dict;
  scores_activity : dict
}.

Record classification : Type := {
  fb_type : string;
  religion : string;
  activity_status : string;
  confidence : confidences;
  scores : score_maps;
  fetched_text_length : nat
}.

Section Entrypoint.

(** Text acquisition is outside the core: [fetch_url] answers the
    lower-cased visible text of a page, or the empty string when the
    request fails. *)
Variable fetch_url : string -> string.

(** [classify_organization(name, url)] *)
Definition classify_organization (name url : string) : py classification :=
  let text := fetch_url url in
  '(religion, rel_scores, rel_conf) <- detect_religion text name ;;
  '(fb_type, type_scores, type_conf) <- detect_type text name religion ;;
  '(activity, act_scores, act_conf) <- detect_activity text name ;;
  Ok {| fb_type := fb_type;
        religion := religion;
        activity_status := activity;
        confidence := {| conf_type := type_conf;
                         conf_religion := rel_conf;
                         conf_activity := act_conf |};
        scores := {| scores_type := type_scores;
                     scores_religion := rel_scores;
                     scores_activity := act_scores |};
        fetched_text_length := String.length text |}.

End Entrypoint.

(** ** Text acquisition *)

(** [s.endswith(suffix)] *)
Fixpoint endswith (s suffix : string) : bool :=
  String.eqb s suffix ||
  match s with
  | EmptyString => false
  | String _ s' => endswith s' suffix
  end.

(** [s[:-1]] *)
Fixpoint drop_last (s : string) : string :=
  match s with
  | EmptyString => EmptyString
  | String c s' =>
      match s' with
      | EmptyString => EmptyString
      | String _ _ => String c (drop_last s')
      end
  end.

(** The sub-pages that [fetch_url] tries after the page itself. *)
Definition probe_suffixes : list string :=
  ["/about"; "/mission"; "/history"; "/governance"].

Section Acquisition.

(** [_safe_get(u)]: the lower-cased visible text of the page at [u], or
    the empty string when the request or the parsing fails.  The answer
    of the network is taken as a function of the address. *)
Variable safe_get : string -> string.

(** [base], the stripped address without one trailing slash. *)
Definition probe_base (url : string) : string :=
  let url := PyStr.strip url in
  if endswith url "/" then drop_last url else url.

(** The body of the loop over the sub-pages: what one sub-page adds to
    [full_text]. *)
Definition probe_step (base full_text suffix : string) : string :=
  let extra := safe_get (base ++ suffix) in
  if PyStr.truthy extra then full_text ++ " " ++ extra else full_text.

(** [fetch_url(url)] *)
Definition fetch_url (url : string) : string :=
  if negb (PyStr.truthy url) then ""
  else
    let base := probe_base url in
    let url := PyStr.strip url in
    fold_left (probe_step base) probe_suffixes (safe_get url).

End Acquisition.

(** ** Presentation layer ([app.py]) *)

(** [pill_style(score)], with [None] for a missing confidence. *)
Definition pill_style (score : option Q) : string :=
  let '(bg, color, border) :=
    match score with
    | None => ("#f2f2f2", "#444444", "#dddddd")
    | Some score =>
        if Qle_bool score 30 then ("#ffe5e5", "#b00020", "#ffb3b3")
        else if Qle_bool score 60 then ("#fff4d6", "#8a5a00", "#ffd27f")
        else ("#e5f6ea", "#1b5e20", "#86d19a")
    end in
  "background-color:" ++ bg ++ "; color:" ++ color ++ "; "
  ++ "padding:0.35rem 1.0rem; border-radius:999px; "
  ++ "border:1px solid " ++ border ++ "; font-weight:500; "
  ++ "font-size:0.9rem; display:inline-block;".

(** The three styles of a pill that has a confidence. *)
Definition low_style : string := pill_style (Some 0).
Definition medium_style : string := pill_style (Some 50).
Definition high_style : string := pill_style (Some 100).

(** The guarded call of the page: the classifier runs only when the form
    was submitted with a name and an address that are not blank, and it
    gets both stripped. *)
Definition app_classify (fetch : string -> string) (submitted : bool)
           (org_name url : string) : option (py classification) :=
  if submitted && PyStr.truthy (PyStr.strip org_name)
     && PyStr.truthy (PyStr.strip url)
  then Some (classify_organization fetch (PyStr.strip org_name)
                                   (PyStr.strip url))
  else None.

(** ** Notions used to state the properties *)

(** [s] holds white space only. *)
Fixpoint blank (s : string) : bool :=
  match s with
  | EmptyString => true
  | String c s' => PyStr.isspace c && blank s'
  end.

(** [kw] starts with a character that is not white space. *)
Definition starts_nonspace (kw : string) : bool :=
  match kw with
  | EmptyString => false
  | String k _ => negb (PyStr.isspace k)
  end.

(** The sum of the four raw religion scores. *)
Definition religion_total (combined : string) : Q :=
  religion_count combined "Islam" + religion_count combined "Christianity"
  + religion_count combined "Judaism" + religion_count combined "Multi-faith".

(** Reduction of dict operations on explicit keys, leaving the keyword
    counts alone. *)
Ltac dict_simpl :=
  cbn [dict_get dict_getitem dict_set dict_iadd dict_keys dict_values
       bind map fst snd String.eqb Ascii.eqb Bool.eqb].

(** * Properties *)

(** ** Strings *)

Section StringFacts.

Import PyStr.

Lemma str_app_assoc (a b c : string) : (a ++ b) ++ c = a ++ (b ++ c).
Proof.
  induction a as [|x a IH]; simpl; [reflexivity | now rewrite IH].
Qed.

Lemma contains_unfold (s kw : string) :
  contains s kw =
  startswith s kw ||
  match s with EmptyString => false | String _ s' => contains s' kw end.
Proof. destruct s; reflexivity. Qed.

Lemma startswith_app (kw post : string) : startswith (kw ++ post) kw = true.
Proof.
  induction kw as [|k kw IH]; simpl; [reflexivity|].
  now rewrite Ascii.eqb_refl, IH.
Qed.

Lemma startswith_split (s kw : string) :
  startswith s kw = true -> exists post, s = kw ++ post.
Proof.
  revert s; induction kw as [|k kw IH]; intros s H; simpl in *.
  - now exists s.
  - destruct s as [|c s]; [discriminate|].
    apply andb_true_iff in H as [Hc Hs].
    apply Ascii.eqb_eq in Hc; subst c.
    destruct (IH _ Hs) as [post ->]. now exists post.
Qed.

Lemma contains_app (pre kw post : string) :
  contains (pre ++ kw ++ post) kw = true.
Proof.
  induction pre as [|c pre IH].
  - simpl. rewrite contains_unfold, startswith_app. reflexivity.
  - simpl. rewrite IH. apply orb_true_r.
Qed.

Lemma contains_split (s kw : string) :
  contains s kw = true -> exists pre post, s = pre ++ kw ++ post.
Proof.
  induction s as [|c s IH]; intros H; rewrite contains_unfold in H;
    apply orb_true_iff in H as [H|H].
  - apply startswith_split in H as [post E]. now exists "", post.
  - discriminate.
  - apply startswith_split in H as [post E]. now exists "", post.
  - destruct (IH H) as (pre & post & ->). now exists (String c pre), post.
Qed.

(** A text that contains a phrase contains every part of the phrase. *)
Lemma contains_part (s a b c : string) :
  contains s (a ++ b ++ c) = true -> contains s b = true.
Proof.
  intros H. apply contains_split in H as (pre & post & ->).
  replace (pre ++ (a ++ b ++ c) ++ post) with ((pre ++ a) ++ b ++ (c ++ post)).
  - apply contains_app.
  - now rewrite !str_app_assoc.
Qed.

Lemma contains_empty_text (kw : string) :
  contains "" kw = true -> kw = "".
Proof. destruct kw; simpl; [reflexivity | discriminate]. Qed.

Lemma count_from_pos (kw s : string) :
  kw <> "" -> contains s kw = true -> (1 <= count_from kw 0 s)%nat.
Proof.
  intros Hkw. induction s as [|c s IH]; intros H.
  - apply contains_empty_text in H. contradiction.
  - rewrite contains_unfold in H. cbn [count_from].
    destruct (startswith (String c s) kw); [lia|].
    simpl in H. auto.
Qed.

Lemma count_nonneg (s kw : string) : (0 <= count s kw)%Z.
Proof. destruct kw; unfold count; lia. Qed.

(** A keyword found by [in] is counted at least once by [count]. *)
Lemma count_pos (s kw : string) :
  contains s kw = true -> (1 <= count s kw)%Z.
Proof.
  intros H. destruct kw as [|k kw]; unfold count; [lia|].
  assert (1 <= count_from (String k kw) 0 s)%nat by
    (apply count_from_pos; [discriminate | assumption]).
  lia.
Qed.

End StringFacts.

(** ** Match counter *)

Lemma hits_nonneg (text kw : string) : (0 <= hits text kw)%Z.
Proof.
  unfold hits. destruct (PyStr.contains text kw); [apply count_nonneg | lia].
Qed.

Lemma hits_pos (text kw : string) :
  PyStr.contains text kw = true -> (1 <= hits text kw)%Z.
Proof. unfold hits. intros H. rewrite H. now apply count_pos. Qed.

Lemma count_loop_acc (text : string) (keywords : list string) (acc : Z) :
  fold_left
    (fun total kw =>
       if PyStr.contains text kw then (total + PyStr.count text kw)%Z else total)
    keywords acc
  = (acc + count_matches text keywords)%Z.
Proof.
  unfold count_matches. revert acc.
  induction keywords as [|kw K IH]; intros acc; simpl; [lia|].
  rewrite IH, (IH (if PyStr.contains text kw then _ else _)).
  destruct (PyStr.contains text kw); lia.
Qed.

Lemma count_matches_nil (text : string) : count_matches text [] = 0%Z.
Proof. reflexivity. Qed.

Lemma count_matches_cons (text kw : string) (K : list string) :
  count_matches text (kw :: K) = (hits text kw + count_matches text K)%Z.
Proof.
  unfold count_matches at 1. simpl. rewrite count_loop_acc.
  unfold hits. destruct (PyStr.contains text kw); lia.
Qed.

Lemma count_matches_nonneg (text : string) (K : list string) :
  (0 <= count_matches text K)%Z.
Proof.
  induction K as [|kw K IH]; [rewrite count_matches_nil; lia|].
  rewrite count_matches_cons. pose proof (hits_nonneg text kw). lia.
Qed.

(** A keyword of the list that occurs in the text makes the count positive. *)
Lemma count_matches_pos (text kw : string) (K : list string) :
  In kw K -> PyStr.contains text kw = true -> (1 <= count_matches text K)%Z.
Proof.
  induction K as [|k K IH]; intros Hin Hc; [contradiction|].
  rewrite count_matches_cons.
  pose proof (hits_nonneg text k). pose proof (count_matches_nonneg text K).
  destruct Hin as [->|Hin].
  - pose proof (hits_pos _ _ Hc). lia.
  - specialize (IH Hin Hc). lia.
Qed.

Lemma count_matches_empty_text (K : list string) :
  ~ In "" K -> count_matches "" K = 0%Z.
Proof.
  induction K as [|k K IH]; intros Hn; [reflexivity|].
  rewrite count_matches_cons, IH by (intros ?; apply Hn; now right).
  unfold hits. destruct (PyStr.contains "" k) eqn:E; [|reflexivity].
  apply contains_empty_text in E. subst k. exfalso. apply Hn. now left.
Qed.

(** C3 (as stated it fails): the empty keyword occurs once in the empty
    text, so the count for the empty text is not always zero. *)
Lemma count_matches_empty_keyword_counterexample :
  count_matches "" [""] = 1%Z /\
  ~ (forall K : list string, count_matches "" K = 0%Z).
Proof.
  split; [reflexivity|].
  intros H. specialize (H [""]). discriminate H.
Qed.

(** C3 (amended): [count_matches] never returns a negative number, it
    returns 0 for an empty keyword list, and it returns 0 for the empty
    text whenever the keyword list does not hold the empty string. *)
Theorem count_matches_nonneg_and_empty (T : string) (K : list string) :
  (0 <= count_matches T K)%Z /\
  count_matches T [] = 0%Z /\
  (~ In "" K -> count_matches "" K = 0%Z).
Proof.
  split; [apply count_matches_nonneg|].
  split; [apply count_matches_nil|].
  apply count_matches_empty_text.
Qed.

Lemma count_matches_nonneg_and_empty_witness :
  (0 <= count_matches "aaaa" ["aa"; "b"])%Z /\
  count_matches "" ["aa"; "b"] = 0%Z.
Proof.
  destruct (count_matches_nonneg_and_empty "aaaa" ["aa"; "b"]) as (H1 & _ & H3).
  split; [exact H1|].
  apply H3. simpl. intros [H|[H|H]]; [discriminate H | discriminate H | exact H].
Defined.

(** ** Dicts and the score normalizer *)

Lemma Qsum_acc (vs : list Q) (acc : Q) :
  fold_left Qplus vs acc == acc + Qsum vs.
Proof.
  unfold Qsum. revert acc.
  induction vs as [|v vs IH]; intros acc; simpl; [ring|].
  rewrite IH, (IH (0 + v)). ring.
Qed.

Lemma Qsum_cons (v : Q) (vs : list Q) : Qsum (v :: vs) == v + Qsum vs.
Proof. unfold Qsum at 1. simpl. rewrite Qsum_acc. ring. Qed.

Lemma Qsum_nonneg (vs : list Q) :
  Forall (fun v => 0 <= v) vs -> 0 <= Qsum vs.
Proof.
  induction 1 as [|v vs Hv _ IH]; [discriminate|].
  rewrite Qsum_cons. lra.
Qed.

Lemma Qsum_scale (c : Q) (vs : list Q) :
  Qsum (map (fun v => v * c) vs) == Qsum vs * c.
Proof.
  induction vs as [|v vs IH]; simpl; [reflexivity|].
  rewrite !Qsum_cons, IH. ring.
Qed.

Lemma Qgtb_true (a b : Q) : Qgtb a b = true <-> b < a.
Proof.
  unfold Qgtb. rewrite negb_true_iff, <- not_true_iff_false, Qle_bool_iff.
  split; [apply Qnot_le_lt | apply Qlt_not_le].
Qed.

Lemma Qgtb_false (a b : Q) : Qgtb a b = false <-> a <= b.
Proof. unfold Qgtb. now rewrite negb_false_iff, Qle_bool_iff. Qed.

(** The values that the total leaves out add nothing when none is negative. *)
Lemma positive_total_nonneg_values (scores : dict) :
  Forall (fun v => 0 <= v) (dict_values scores) ->
  positive_total scores == Qsum (dict_values scores).
Proof.
  unfold positive_total.
  induction (dict_values scores) as [|v vs IH]; intros H; [reflexivity|].
  inversion H as [|? ? Hv Hvs]; subst. simpl.
  destruct (Qgtb v 0) eqn:E.
  - rewrite !Qsum_cons, IH by assumption. reflexivity.
  - apply Qgtb_false in E. rewrite Qsum_cons, IH by assumption. lra.
Qed.

Lemma positive_total_nonneg (scores : dict) : 0 <= positive_total scores.
Proof.
  unfold positive_total. apply Qsum_nonneg.
  induction (dict_values scores) as [|v vs IH]; simpl; [constructor|].
  destruct (Qgtb v 0) eqn:E; [|assumption].
  constructor; [|assumption]. apply Qgtb_true in E. lra.
Qed.

Lemma normalize_scores_keys (scores : dict) :
  dict_keys (normalize_scores scores) = dict_keys scores.
Proof.
  unfold normalize_scores, dict_keys.
  destruct (Qle_bool (positive_total scores) 0); rewrite map_map; reflexivity.
Qed.

Lemma dict_getitem_map (f : Q -> Q) (d : dict) (k : string) (v : Q) :
  dict_getitem d k = Ok v ->
  dict_getitem (map (fun kv => (fst kv, f (snd kv))) d) k = Ok (f v).
Proof.
  induction d as [|[k' v'] d IH]; simpl; [discriminate|].
  destruct (String.eqb k' k); [|exact IH].
  intros H. now inversion H.
Qed.

Lemma dict_get_map (f : Q -> Q) (d : dict) (k : string) (default : Q) :
  dict_get (map (fun kv => (fst kv, f (snd kv))) d) k (f default)
  = f (dict_get d k default).
Proof.
  induction d as [|[k' v'] d IH]; simpl; [reflexivity|].
  destruct (String.eqb k' k); [reflexivity | exact IH].
Qed.

Lemma normalize_scores_zero (scores : dict) :
  positive_total scores <= 0 ->
  normalize_scores scores = map (fun kv => (fst kv, 0)) scores.
Proof.
  intros H. unfold normalize_scores.
  apply Qle_bool_iff in H. now rewrite H.
Qed.

Lemma normalize_scores_pos (scores : dict) :
  0 < positive_total scores ->
  normalize_scores scores =
  map (fun kv => (fst kv, (snd kv / positive_total scores) * 100)) scores.
Proof.
  intros H. unfold normalize_scores.
  destruct (Qle_bool (positive_total scores) 0) eqn:E; [|reflexivity].
  apply Qle_bool_iff in E. lra.
Qed.

Lemma Qsum_shares (t : Q) (d : dict) :
  ~ t == 0 ->
  Qsum (map (fun kv => (snd kv / t) * 100) d) == (Qsum (dict_values d) / t) * 100.
Proof.
  intros Ht. unfold dict_values.
  induction d as [|[k v] d IH]; simpl.
  - unfold Qsum; simpl. field. exact Ht.
  - rewrite !Qsum_cons, IH. field. exact Ht.
Qed.

(** With no negative raw score the normalized values add up to 100. *)
Lemma normalize_scores_sum (scores : dict) :
  0 < positive_total scores ->
  Forall (fun v => 0 <= v) (dict_values scores) ->
  Qsum (dict_values (normalize_scores scores)) == 100.
Proof.
  intros Hpos Hnn. rewrite normalize_scores_pos by assumption.
  unfold dict_values at 1. rewrite map_map. cbn [snd].
  rewrite Qsum_shares by lra.
  rewrite <- positive_total_nonneg_values by assumption.
  field. lra.
Qed.

(** ** The normalizer over an arithmetic, and on the store *)

Lemma normalize_scores_exact (scores : dict) :
  normalize_scores scores
  = normalize_scores_of Q 0 100 Qplus Qdiv Qmult Qgtb Qle_bool scores.
Proof. reflexivity. Qed.

Section StoreFacts.

Variable V : Type.

Lemma obj_get_map (f : V -> V) (d : obj V) (k : string) (v : V) :
  obj_get d k = Some v ->
  obj_get (map (fun kv => (fst kv, f (snd kv))) d) k = Some (f v).
Proof.
  induction d as [|[k' v'] d IH]; simpl; [discriminate|].
  destruct (String.eqb k' k); [|exact IH].
  intros H. now inversion H.
Qed.

Lemma obj_set_new (d : obj V) (k : string) (v : V) :
  ~ In k (map fst d) -> obj_set d k v = (d ++ [(k, v)])%list.
Proof.
  induction d as [|[k' v'] d IH]; intros Hk; [reflexivity|].
  cbn [obj_set app]. cbn [map fst] in Hk.
  destruct (String.eqb_spec k' k) as [->|_].
  - exfalso. apply Hk. now left.
  - rewrite IH; [reflexivity|]. intros Hin. apply Hk. now right.
Qed.

Lemma store_put_last (h : store V) (d d' : obj V) :
  store_put (h ++ [d])%list (List.length h) d' = (h ++ [d'])%list.
Proof.
  induction h as [|x h IH]; [reflexivity|].
  cbn [app List.length store_put]. now rewrite IH.
Qed.

Lemma nth_error_last (h : store V) (d : obj V) :
  nth_error (h ++ [d])%list (List.length h) = Some d.
Proof.
  rewrite nth_error_app2 by apply Nat.le_refl. now rewrite Nat.sub_diag.
Qed.

(** The insertions of a comprehension go to the new dict only, and leave
    it with the items in the order of the keys they come from. *)
Lemma fill_last (kvs acc : obj V) (h : store V) :
  NoDup (map fst (acc ++ kvs)%list) ->
  fill (List.length h) kvs (h ++ [acc])%list = Some (tt, (h ++ [acc ++ kvs])%list).
Proof.
  revert acc. induction kvs as [|[k v] kvs IH]; intros acc Hnd.
  - cbn [fill]. unfold done. now rewrite app_nil_r.
  - cbn [fill]. unfold and_then, setitem.
    rewrite nth_error_last, store_put_last.
    assert (~ In k (map fst acc)) as Hk.
    { rewrite map_app in Hnd. cbn [map fst] in Hnd.
      apply NoDup_remove_2 in Hnd. intros Hin. apply Hnd.
      apply in_or_app. now left. }
    rewrite (obj_set_new acc k v Hk), IH.
    + now rewrite <- app_assoc.
    + now rewrite <- app_assoc.
Qed.

End StoreFacts.

Section NormalizerFacts.

Variable num : Type.
Variables zero hundred : num.
Variables add div mul : num -> num -> num.
Variables gtb leb : num -> num -> bool.

Let total := positive_total_of num zero add gtb.
Let normalize := normalize_scores_of num zero hundred add div mul gtb leb.
Let steps := normalize_scores_steps num zero hundred add div mul gtb leb.

Lemma normalize_of_keys (scores : obj num) :
  map fst (normalize scores) = map fst scores.
Proof.
  unfold normalize, normalize_scores_of.
  destruct (leb _ zero); rewrite map_map; reflexivity.
Qed.

Lemma normalize_of_zero (scores : obj num) (k : string) (v : num) :
  leb (total scores) zero = true ->
  obj_get scores k = Some v ->
  obj_get (normalize scores) k = Some zero.
Proof.
  intros Ht Hk. unfold normalize, normalize_scores_of.
  fold (total scores). rewrite Ht.
  exact (obj_get_map num (fun _ => zero) scores k v Hk).
Qed.

Lemma normalize_of_share (scores : obj num) (k : string) (v : num) :
  leb (total scores) zero = false ->
  obj_get scores k = Some v ->
  obj_get (normalize scores) k = Some (mul (div v (total scores)) hundred).
Proof.
  intros Ht Hk. unfold normalize, normalize_scores_of.
  fold (total scores). rewrite Ht.
  exact (obj_get_map num (fun x => mul (div x (total scores)) hundred)
                     scores k v Hk).
Qed.

(** Run on a store, [normalize_scores] adds one dict, which holds the
    normalized items, and writes to no dict that was there. *)
Lemma normalize_steps_run (h : store num) (r : nat) (scores : obj num) :
  nth_error h r = Some scores ->
  NoDup (map fst scores) ->
  steps r h = Some (List.length h, (h ++ [normalize scores])%list).
Proof.
  intros Hr Hnd.
  unfold steps, normalize_scores_steps, normalize, normalize_scores_of.
  unfold and_then at 1. unfold load. rewrite Hr.
  destruct (leb (positive_total_of num zero add gtb scores) zero);
    unfold and_then, new_dict, done;
    rewrite (fill_last num _ [] h); try reflexivity;
    cbn [app]; rewrite map_map; exact Hnd.
Qed.

End NormalizerFacts.




(** ** Taking the maximum over the items of a dict *)

(** [max] answers the first item whose value is the greatest: every item
    before it is strictly smaller, every item after it is at most equal. *)
Lemma max_from_first (rest : dict) (best : string * Q) :
  exists pre post,
    best :: rest = (pre ++ max_from best rest :: post)%list /\
    Forall (fun x => snd x < snd (max_from best rest)) pre /\
    Forall (fun x => snd x <= snd (max_from best rest)) post.
Proof.
  revert best. induction rest as [|x rest IH]; intros best; cbn [max_from].
  - exists [], []. repeat split; constructor.
  - destruct (Qgtb (snd x) (snd best)) eqn:E.
    + apply Qgtb_true in E.
      destruct (IH x) as (pre & post & Heq & Hpre & Hpost).
      exists (best :: pre), post. split; [simpl; now rewrite <- Heq|].
      split; [|assumption]. constructor; [|assumption].
      destruct pre as [|y pre]; simpl in Heq; injection Heq as Hx Hrest.
      * rewrite <- Hx. assumption.
      * subst y. inversion Hpre; subst. lra.
    + apply Qgtb_false in E.
      destruct (IH best) as (pre & post & Heq & Hpre & Hpost).
      destruct pre as [|y pre]; simpl in Heq; injection Heq as Hb Hrest.
      * exists [], (x :: post). split; [simpl; now rewrite <- Hb, Hrest|].
        split; [constructor|]. constructor; [|assumption].
        rewrite <- Hb. assumption.
      * subst y. exists (best :: x :: pre), post.
        split; [simpl; do 2 f_equal; exact Hrest|].
        split; [|assumption]. inversion Hpre; subst.
        constructor; [assumption|]. constructor; [lra | assumption].
Qed.

Lemma max_by_value_first (d : dict) (top : string * Q) :
  max_by_value d = Ok top ->
  exists pre post,
    d = (pre ++ top :: post)%list /\
    Forall (fun x => snd x < snd top) pre /\
    Forall (fun x => snd x <= snd top) post.
Proof.
  destruct d as [|x rest]; simpl; [discriminate|].
  intros H. inversion H; subst. apply max_from_first.
Qed.

Lemma max_by_value_in (d : dict) (top : string * Q) :
  max_by_value d = Ok top -> In top d.
Proof.
  intros H. apply max_by_value_first in H as (pre & post & -> & _).
  apply in_or_app. right. now left.
Qed.

(** ** Religion detection *)

Lemma religion_scores_eq (combined : string) :
  religion_scores combined =
  [ ("Islam", religion_count combined "Islam");
    ("Christianity", religion_count combined "Christianity");
    ("Judaism", religion_count combined "Judaism");
    ("Multi-faith", religion_count combined "Multi-faith") ].
Proof. reflexivity. Qed.

Lemma main_scores_eq (combined : string) :
  main_scores (religion_scores combined) =
  [ ("Islam", religion_count combined "Islam");
    ("Christianity", religion_count combined "Christianity");
    ("Judaism", religion_count combined "Judaism") ].
Proof. reflexivity. Qed.

Lemma multi_score_eq (combined : string) :
  multi_score (religion_scores combined) = religion_count combined "Multi-faith".
Proof. reflexivity. Qed.

Lemma float_nonneg (n : Z) : (0 <= n)%Z -> 0 <= float n.
Proof.
  intros H. unfold float, Qle. simpl. lia.
Qed.

Lemma float_ge_1 (n : Z) : (1 <= n)%Z -> 1 <= float n.
Proof.
  intros H. unfold float, Qle. simpl. lia.
Qed.

Lemma float_zero_or_ge_1 (n : Z) : (0 <= n)%Z -> float n == 0 \/ 1 <= float n.
Proof.
  intros H. unfold float, Qle, Qeq. simpl. lia.
Qed.

Lemma religion_count_nonneg (combined rel : string) :
  0 <= religion_count combined rel.
Proof. apply float_nonneg, count_matches_nonneg. Qed.

Lemma generic_score_nonneg (combined : string) : 0 <= generic_score combined.
Proof. apply float_nonneg, count_matches_nonneg. Qed.

Lemma Qeqb_true (a b : Q) : Qeqb a b = true <-> a == b.
Proof. apply Qeq_bool_iff. Qed.

Lemma Qeqb_false (a b : Q) : Qeqb a b = false <-> ~ a == b.
Proof.
  unfold Qeqb. rewrite <- not_true_iff_false, Qeq_bool_iff. reflexivity.
Qed.

(** The main religions always have a top entry. *)
Lemma max_main_ok (combined : string) :
  exists top, max_main (religion_scores combined) = Ok top.
Proof.
  unfold max_main. rewrite main_scores_eq. cbn [max_by_value]. eauto.
Qed.

Lemma Qle_bool_false (a b : Q) : Qle_bool a b = false <-> b < a.
Proof.
  rewrite <- not_true_iff_false, Qle_bool_iff.
  split; [apply Qnot_le_lt | apply Qlt_not_le].
Qed.

(** C4: a name whose lower-case form holds an interfaith marker gets the
    label Multi-faith whenever there is any religious signal; the
    Multi-faith raw score that is returned is at least 1, and the raw
    scores of the main religions are returned as counted. *)
Theorem detect_religion_name_marker (text name : string) (top : string * Q) :
  name_has_marker name = true ->
  max_main (religion_scores (combined_text name text)) = Ok top ->
  ~ (snd top == 0 /\
     multi_score (religion_scores (combined_text name text)) == 0 /\
     generic_score (combined_text name text) == 0) ->
  exists sc conf,
    detect_religion text name = Ok ("Multi-faith", sc, conf) /\
    1 <= dict_get sc "Multi-faith" 0 /\
    (forall rel, In rel main_rels ->
       dict_get sc rel 0 = religion_count (combined_text name text) rel).
Proof.
  intros Hmark Hmax Hsig. unfold detect_religion.
  rewrite Hmax. cbn [bind]. rewrite Hmark.
  set (combined := combined_text name text) in *.
  destruct (Qeqb (snd top) 0 && Qeqb (multi_score (religion_scores combined)) 0
            && Qeqb (generic_score combined) 0) eqn:G1.
  - exfalso. apply Hsig.
    apply andb_true_iff in G1 as [G1 G3]. apply andb_true_iff in G1 as [G1 G2].
    apply Qeqb_true in G1, G2, G3. auto.
  - rewrite multi_score_eq, religion_scores_eq.
    destruct (Qeqb (religion_count combined "Multi-faith") 0) eqn:G2;
      eexists _, _; (split; [reflexivity|]); dict_simpl.
    + split; [lra|].
      intros rel [<-|[<-|[<-|[]]]]; reflexivity.
    + apply Qeqb_false in G2. split.
      * destruct (float_zero_or_ge_1
                    (count_matches combined (keywords_of "Multi-faith"))
                    (count_matches_nonneg _ _)) as [H|H];
          [contradiction | exact H].
      * intros rel [<-|[<-|[<-|[]]]]; reflexivity.
Qed.

Lemma detect_religion_name_marker_witness :
  exists sc conf,
    detect_religion "we bring together synagogues, churches and mosques"
                    "Interfaith Action Council"
    = Ok ("Multi-faith", sc, conf) /\
    1 <= dict_get sc "Multi-faith" 0 /\
    (forall rel, In rel main_rels ->
       dict_get sc rel 0 =
       religion_count
         (combined_text "Interfaith Action Council"
            "we bring together synagogues, churches and mosques") rel).
Proof.
  apply (detect_religion_name_marker
           "we bring together synagogues, churches and mosques"
           "Interfaith Action Council" ("Islam", 1)).
  - reflexivity.
  - reflexivity.
  - intros [H _]. discriminate H.
Defined.

(** C6: with no main-religion score, no multi-faith score, no marker in
    the name and a positive generic-faith score, the label is
    Other/Unknown, the raw scores gain the key GenericFaith holding the
    generic count, and the confidence is 0, the default of a lookup whose
    key Other/Unknown is in no score map. *)
Theorem detect_religion_generic_only (text name : string) (top : string * Q) :
  max_main (religion_scores (combined_text name text)) = Ok top ->
  snd top == 0 ->
  multi_score (religion_scores (combined_text name text)) == 0 ->
  name_has_marker name = false ->
  0 < generic_score (combined_text name text) ->
  detect_religion text name
  = Ok ("Other/Unknown",
        dict_set (religion_scores (combined_text name text))
                 "GenericFaith" (generic_score (combined_text name text)),
        0) /\
  dict_getitem
    (dict_set (religion_scores (combined_text name text))
              "GenericFaith" (generic_score (combined_text name text)))
    "GenericFaith"
  = Ok (generic_score (combined_text name text)) /\
  dict_getitem
    (normalize_scores
       (dict_set (religion_scores (combined_text name text))
                 "GenericFaith" (generic_score (combined_text name text))))
    "Other/Unknown"
  = Raise (KeyError "Other/Unknown").
Proof.
  set (combined := combined_text name text).
  intros Hmax Htop Hmulti Hmark Hgen.
  assert (forall d,
             dict_get
               (normalize_scores
                  (dict_set (religion_scores combined) "GenericFaith" d))
               "Other/Unknown" 0 = 0) as Hconf.
  { intros d. unfold normalize_scores.
    destruct (Qle_bool _ 0); rewrite religion_scores_eq; reflexivity. }
  split; [|split].
  - unfold detect_religion. fold combined. rewrite Hmax. cbn [bind].
    rewrite Hmark.
    assert (Qeqb (generic_score combined) 0 = false) as ->
        by (apply Qeqb_false; lra).
    assert (Qle_bool 2 (snd top) = false) as ->
        by (apply Qle_bool_false; lra).
    assert (Qgtb (snd top) (multi_score (religion_scores combined)) = false)
      as -> by (apply Qgtb_false; lra).
    assert (Qgtb (multi_score (religion_scores combined)) 0 = false) as ->
        by (apply Qgtb_false; lra).
    assert (Qeqb (snd top) 0 = true) as -> by (now apply Qeqb_true).
    assert (Qgtb (generic_score combined) 0 = true) as ->
        by (now apply Qgtb_true).
    rewrite andb_false_r. cbn [andb orb]. now rewrite Hconf.
  - rewrite religion_scores_eq. dict_simpl. reflexivity.
  - unfold normalize_scores.
    destruct (Qle_bool _ 0); rewrite religion_scores_eq; reflexivity.
Qed.

Lemma detect_religion_generic_only_witness :
  detect_religion "worship" "x"
  = Ok ("Other/Unknown",
        dict_set (religion_scores (combined_text "x" "worship"))
                 "GenericFaith" (generic_score (combined_text "x" "worship")),
        0).
Proof.
  apply (detect_religion_generic_only "worship" "x" ("Islam", 0));
    reflexivity.
Defined.

(** ** Type detection *)

Lemma detect_type_eq (text name religion : string) :
  detect_type text name religion =
  (let scores :=
     if all_but_notfb_zero (type_accumulators (combined_text name text) religion)
     then dict_set (type_accumulators (combined_text name text) religion)
                   "Not-FB" 1
     else type_accumulators (combined_text name text) religion in
   best <- max_by_value scores ;;
   Ok (fst best, scores, dict_get (normalize_scores scores) (fst best) 0)).
Proof. reflexivity. Qed.

Lemma type_scores_nonempty (combined religion : string) :
  exists best,
    max_by_value
      (if all_but_notfb_zero (type_accumulators combined religion)
       then dict_set (type_accumulators combined religion) "Not-FB" 1
       else type_accumulators combined religion) = Ok best.
Proof.
  destruct (all_but_notfb_zero _); unfold type_accumulators; dict_simpl;
    cbn [max_by_value]; eauto.
Qed.

Lemma core_hits_eq (combined : string) :
  core_hits combined =
  (count_matches combined WORSHIP_PLACE_KEYWORDS
   + count_matches combined WORSHIP_PRACTICE_KEYWORDS
   + (if existsb (fun w => PyStr.contains combined w) core_markers
      then 2 else 0))%Z.
Proof.
  unfold core_hits.
  destruct (existsb _ core_markers); lia.
Qed.

Lemma float_eq (a b : Z) : a = b -> float a == float b.
Proof. now intros ->. Qed.

(** C7: the FBCore accumulator is the count of worship-place keywords plus
    the count of worship-practice keywords in the combined text, plus 2,
    added once, when one of "parish", "diocese", "cathedral", "chapel"
    occurs in the combined text, and plus nothing otherwise. *)
Theorem detect_type_fbcore (text name religion : string) :
  exists label sc conf v,
    detect_type text name religion = Ok (label, sc, conf) /\
    dict_getitem sc "FBCore" = Ok v /\
    ((exists w, In w ["parish"; "diocese"; "cathedral"; "chapel"] /\
                PyStr.contains (combined_text name text) w = true) ->
     v == float (count_matches (combined_text name text) WORSHIP_PLACE_KEYWORDS
                 + count_matches (combined_text name text)
                     WORSHIP_PRACTICE_KEYWORDS
                 + 2)) /\
    ((forall w, In w ["parish"; "diocese"; "cathedral"; "chapel"] ->
                PyStr.contains (combined_text name text) w = false) ->
     v == float (count_matches (combined_text name text) WORSHIP_PLACE_KEYWORDS
                 + count_matches (combined_text name text)
                     WORSHIP_PRACTICE_KEYWORDS)).
Proof.
  set (combined := combined_text name text).
  rewrite detect_type_eq. fold combined. cbv zeta.
  destruct (type_scores_nonempty combined religion) as [best Hbest].
  rewrite Hbest. cbn [bind].
  eexists _, _, _, (0 + float (core_hits combined)).
  split; [reflexivity|]. split.
  - destruct (all_but_notfb_zero _); reflexivity.
  - rewrite core_hits_eq. split.
    + intros (w & Hin & Hw).
      assert (existsb (fun w => PyStr.contains combined w) core_markers = true)
        as -> by (apply existsb_exists; eauto).
      rewrite Qplus_0_l. reflexivity.
    + intros Hnone.
      assert (existsb (fun w => PyStr.contains combined w) core_markers = false)
        as E.
      { apply not_true_iff_false. intros H.
        apply existsb_exists in H as (w & Hin & Hw).
        rewrite (Hnone w Hin) in Hw. discriminate. }
      rewrite E, Qplus_0_l. apply float_eq. lia.
Qed.

Lemma detect_type_fbcore_witness :
  exists label sc conf v,
    detect_type "parish parish chapel" "x" "Christianity" = Ok (label, sc, conf) /\
    dict_getitem sc "FBCore" = Ok v /\
    v == float (count_matches (combined_text "x" "parish parish chapel")
                  WORSHIP_PLACE_KEYWORDS
                + count_matches (combined_text "x" "parish parish chapel")
                    WORSHIP_PRACTICE_KEYWORDS
                + 2) /\
    v == 5.
Proof.
  destruct (detect_type_fbcore "parish parish chapel" "x" "Christianity")
    as (label & sc & conf & v & Hd & Hv & Hbonus & _).
  exists label, sc, conf, v. split; [exact Hd|]. split; [exact Hv|].
  assert (v == float (count_matches (combined_text "x" "parish parish chapel")
                        WORSHIP_PLACE_KEYWORDS
                      + count_matches (combined_text "x" "parish parish chapel")
                          WORSHIP_PRACTICE_KEYWORDS
                      + 2)) as H.
  { apply Hbonus. exists "parish". split; [now left | reflexivity]. }
  split; [exact H|]. rewrite H. reflexivity.
Defined.

(** ** Range of a normalized value *)

Lemma positive_total_cons (k : string) (v : Q) (d : dict) :
  positive_total ((k, v) :: d)
  == (if Qgtb v 0 then v else 0) + positive_total d.
Proof.
  unfold positive_total, dict_values. cbn [map snd filter].
  destruct (Qgtb v 0); [apply Qsum_cons | ring].
Qed.

(** No value exceeds the total of the positive values. *)
Lemma value_le_positive_total (d : dict) (v : Q) :
  In v (dict_values d) -> v <= positive_total d.
Proof.
  induction d as [|[k x] d IH]; intros Hin; [contradiction|].
  rewrite positive_total_cons. pose proof (positive_total_nonneg d) as Hd.
  destruct Hin as [Hx|Hin].
  - simpl in Hx. subst x. destruct (Qgtb v 0) eqn:E.
    + lra.
    + apply Qgtb_false in E. lra.
  - specialize (IH Hin). destruct (Qgtb x 0) eqn:E.
    + apply Qgtb_true in E. lra.
    + lra.
Qed.

Lemma share_range (v t : Q) : 0 <= v -> v <= t -> 0 < t -> 0 <= (v / t) * 100 <= 100.
Proof.
  intros Hv Hvt Ht. split.
  - apply Qmult_le_0_compat; [|discriminate].
    apply Qle_shift_div_l; [assumption | lra].
  - assert (v / t <= 1) by (apply Qle_shift_div_r; [assumption | lra]).
    lra.
Qed.

Lemma dict_get_map_cases (f : Q -> Q) (d : dict) (k : string) (default : Q) :
  dict_get (map (fun kv => (fst kv, f (snd kv))) d) k default = default \/
  exists v, In v (dict_values d) /\
            dict_get (map (fun kv => (fst kv, f (snd kv))) d) k default = f v.
Proof.
  induction d as [|[k' v'] d IH]; cbn [map dict_get fst snd]; [now left|].
  destruct (String.eqb k' k).
  - right. exists v'. split; [now left | reflexivity].
  - destruct IH as [IH|(v & Hin & IH)]; [now left|].
    right. exists v. split; [now right | exact IH].
Qed.

(** A lookup in a normalized map of non-negative scores is a percentage. *)
Lemma dict_get_normalize_range (d : dict) (k : string) (default : Q) :
  Forall (fun v => 0 <= v) (dict_values d) ->
  0 <= default <= 100 ->
  0 <= dict_get (normalize_scores d) k default <= 100.
Proof.
  intros Hnn Hdef. unfold normalize_scores.
  destruct (Qle_bool (positive_total d) 0) eqn:E.
  - destruct (dict_get_map_cases (fun _ => 0) d k default)
      as [->|(v & _ & ->)]; [assumption | split; discriminate].
  - apply Qle_bool_false in E.
    destruct (dict_get_map_cases (fun x => (x / positive_total d) * 100)
                                 d k default)
      as [->|(v & Hin & ->)]; [assumption|].
    apply share_range; [|now apply value_le_positive_total | assumption].
    rewrite Forall_forall in Hnn. now apply Hnn.
Qed.

Lemma dict_set_nonneg (d : dict) (k : string) (v : Q) :
  Forall (fun x => 0 <= x) (dict_values d) -> 0 <= v ->
  Forall (fun x => 0 <= x) (dict_values (dict_set d k v)).
Proof.
  intros Hd Hv. induction d as [|[k' v'] d IH]; cbn [dict_set].
  - repeat constructor. assumption.
  - inversion Hd; subst.
    destruct (String.eqb k' k); constructor; auto.
Qed.

Lemma religion_scores_nonneg (combined : string) :
  Forall (fun v => 0 <= v) (dict_values (religion_scores combined)).
Proof.
  rewrite religion_scores_eq.
  repeat constructor; apply religion_count_nonneg.
Qed.

(** [detect_religion] always returns, with a percentage as confidence. *)
Lemma detect_religion_total (text name : string) :
  exists label sc conf,
    detect_religion text name = Ok (label, sc, conf) /\ 0 <= conf <= 100.
Proof.
  unfold detect_religion.
  set (combined := combined_text name text).
  destruct (max_main_ok combined) as [top ->]. cbn [bind].
  pose proof (religion_scores_nonneg combined) as Hnn.
  pose proof (generic_score_nonneg combined) as Hg.
  destruct (_ && _ && _).
  { eexists _, _, _. split; [reflexivity | split; discriminate]. }
  destruct (name_has_marker name).
  { eexists _, _, _. split; [reflexivity|].
    apply dict_get_normalize_range; [|split; discriminate].
    destruct (Qeqb _ 0); [apply dict_set_nonneg; [assumption | discriminate]
                         | assumption]. }
  destruct (_ || _).
  { eexists _, _, _. split; [reflexivity|].
    apply dict_get_normalize_range; [assumption | split; discriminate]. }
  destruct (_ && _).
  { eexists _, _, _. split; [reflexivity|].
    apply dict_get_normalize_range; [assumption | split; discriminate]. }
  destruct (_ && _).
  { eexists _, _, _. split; [reflexivity|].
    apply dict_get_normalize_range; [|split; discriminate].
    apply dict_set_nonneg; assumption. }
  eexists _, _, _. split; [reflexivity|].
  apply dict_get_normalize_range; [assumption | split; discriminate].
Qed.

Lemma core_hits_nonneg (combined : string) : (0 <= core_hits combined)%Z.
Proof.
  rewrite core_hits_eq.
  pose proof (count_matches_nonneg combined WORSHIP_PLACE_KEYWORDS).
  pose proof (count_matches_nonneg combined WORSHIP_PRACTICE_KEYWORDS).
  destruct (existsb _ core_markers); lia.
Qed.

Lemma comm_hits_nonneg (combined religion : string) :
  0 <= comm_hits combined religion.
Proof.
  unfold comm_hits.
  pose proof (count_matches_nonneg combined LOCAL_COMMUNITY_KEYWORDS).
  pose proof (count_matches_nonneg combined community_keywords).
  pose proof (float_nonneg _ (count_matches_nonneg combined GLOBAL_NGO_KEYWORDS)).
  assert (0 <= float (count_matches combined LOCAL_COMMUNITY_KEYWORDS
                      + count_matches combined community_keywords))
    by (apply float_nonneg; lia).
  destruct (is_named_religion religion); [|assumption].
  assert (0 <= float (count_matches combined GLOBAL_NGO_KEYWORDS) * (3 # 10))
    by (apply Qmult_le_0_compat; [assumption | discriminate]).
  lra.
Qed.

Lemma type_accumulators_nonneg (combined religion : string) :
  Forall (fun v => 0 <= v) (dict_values (type_accumulators combined religion)).
Proof.
  pose proof (float_nonneg _ (core_hits_nonneg combined)).
  pose proof (float_nonneg _ (count_matches_nonneg combined origin_keywords)).
  pose proof (comm_hits_nonneg combined religion).
  unfold type_accumulators. cbn [dict_values map snd].
  repeat constructor; try lra.
Qed.

(** [detect_type] always returns, with a percentage as confidence. *)
Lemma detect_type_total (text name religion : string) :
  exists label sc conf,
    detect_type text name religion = Ok (label, sc, conf) /\ 0 <= conf <= 100.
Proof.
  rewrite detect_type_eq. cbv zeta.
  set (combined := combined_text name text).
  destruct (type_scores_nonempty combined religion) as [best ->]. cbn [bind].
  eexists _, _, _. split; [reflexivity|].
  apply dict_get_normalize_range; [|split; discriminate].
  pose proof (type_accumulators_nonneg combined religion).
  destruct (all_but_notfb_zero _);
    [apply dict_set_nonneg; [assumption | discriminate] | assumption].
Qed.

(** ** Activity status *)

(** The phrase lists are already in lower case. *)
Lemma phrases_lower :
  map PyStr.lower INACTIVE_PHRASES = INACTIVE_PHRASES /\
  map PyStr.lower ARCHIVE_PHRASES = ARCHIVE_PHRASES.
Proof. split; reflexivity. Qed.

Lemma inactive_total_eq (combined : string) :
  inactive_total combined =
  (count_matches combined INACTIVE_PHRASES
   + count_matches combined ARCHIVE_PHRASES)%Z.
Proof.
  unfold inactive_total. destruct phrases_lower as [-> ->]. reflexivity.
Qed.

Lemma inactive_hits_sum (combined : string) :
  (count_matches combined (map PyStr.lower INACTIVE_PHRASES)
   + count_matches combined (map PyStr.lower ARCHIVE_PHRASES))%Z
  = inactive_total combined.
Proof. reflexivity. Qed.

Lemma inactive_total_nonneg (combined : string) :
  (0 <= inactive_total combined)%Z.
Proof.
  rewrite inactive_total_eq.
  pose proof (count_matches_nonneg combined INACTIVE_PHRASES).
  pose proof (count_matches_nonneg combined ARCHIVE_PHRASES). lia.
Qed.

Lemma count_matches_app (text : string) (K1 K2 : list string) :
  count_matches text (K1 ++ K2)
  = (count_matches text K1 + count_matches text K2)%Z.
Proof.
  induction K1 as [|k K1 IH]; cbn [app].
  - rewrite count_matches_nil. lia.
  - rewrite !count_matches_cons, IH. lia.
Qed.

Lemma float_pos (n : Z) : (0 < n)%Z -> 0 < float n.
Proof. intros H. unfold float, Qlt. simpl. lia. Qed.

(** The one non-zero accumulator takes the whole share. *)
Lemma single_share (l1 l2 l3 : string) (a b c : Q) :
  0 < a -> b == 0 -> c == 0 ->
  dict_get (normalize_scores [(l1, a); (l2, b); (l3, c)]) l1 0 == 100.
Proof.
  intros Ha Hb Hc.
  assert (positive_total [(l1, a); (l2, b); (l3, c)] == a) as Ht.
  { rewrite !positive_total_cons.
    assert (Qgtb a 0 = true) as -> by now apply Qgtb_true.
    assert (Qgtb b 0 = false) as -> by (apply Qgtb_false; lra).
    assert (Qgtb c 0 = false) as -> by (apply Qgtb_false; lra).
    unfold positive_total, Qsum. simpl. ring. }
  rewrite normalize_scores_pos by lra.
  cbn [map dict_get fst snd]. rewrite String.eqb_refl, Ht. field. lra.
Qed.

Lemma detect_activity_inactive (text name : string) :
  (0 < inactive_total (combined_text name text))%Z ->
  detect_activity text name
  = Ok ("Inactive",
        [ ("Inactive", float (inactive_total (combined_text name text)));
          ("Likely active", 0);
          ("Unknown", 0) ],
        dict_get
          (normalize_scores
             [ ("Inactive", float (inactive_total (combined_text name text)));
               ("Likely active", 0);
               ("Unknown", 0) ])
          "Inactive" 0).
Proof.
  intros H. apply float_pos, Qgtb_true in H.
  unfold detect_activity. dict_simpl.
  rewrite !inactive_hits_sum.
  rewrite H. reflexivity.
Qed.

(** C8: when the combined text holds an inactive phrase or an archive
    phrase, the label is Inactive, the raw Inactive score is the count of
    the inactive phrases plus the count of the archive phrases, and the
    confidence is 100. *)
Theorem detect_activity_inactive_phrase (text name p : string) :
  In p (INACTIVE_PHRASES ++ ARCHIVE_PHRASES) ->
  PyStr.contains (combined_text name text) p = true ->
  exists conf,
    detect_activity text name
    = Ok ("Inactive",
          [ ("Inactive",
             float (count_matches (combined_text name text) INACTIVE_PHRASES
                    + count_matches (combined_text name text) ARCHIVE_PHRASES));
            ("Likely active", 0);
            ("Unknown", 0) ],
          conf) /\
    conf == 100.
Proof.
  intros Hin Hp. set (combined := combined_text name text) in *.
  assert (0 < inactive_total combined)%Z as Hpos.
  { rewrite inactive_total_eq, <- count_matches_app.
    pose proof (count_matches_pos combined p _ Hin Hp). lia. }
  rewrite (detect_activity_inactive text name Hpos). fold combined.
  rewrite inactive_total_eq in *.
  eexists. split; [reflexivity|].
  apply single_share; [now apply float_pos | reflexivity | reflexivity].
Qed.

Lemma detect_activity_inactive_phrase_witness :
  exists conf,
    detect_activity "sadly, this website is an archive" "Old Mission"
    = Ok ("Inactive",
          [ ("Inactive",
             float (count_matches
                      (combined_text "Old Mission"
                                     "sadly, this website is an archive")
                      INACTIVE_PHRASES
                    + count_matches
                        (combined_text "Old Mission"
                                       "sadly, this website is an archive")
                        ARCHIVE_PHRASES));
            ("Likely active", 0);
            ("Unknown", 0) ],
          conf) /\
    conf == 100.
Proof.
  apply (detect_activity_inactive_phrase
           "sadly, this website is an archive" "Old Mission"
           "this website is an archive").
  - unfold INACTIVE_PHRASES, ARCHIVE_PHRASES. apply in_or_app. right. now left.
  - reflexivity.
Defined.

(** Two different keywords of a list that both occur in the text are both
    counted. *)
Lemma count_matches_two (text a b : string) (K1 K2 K3 : list string) :
  PyStr.contains text a = true -> PyStr.contains text b = true ->
  (2 <= count_matches text (K1 ++ a :: K2 ++ b :: K3))%Z.
Proof.
  intros Ha Hb.
  rewrite count_matches_app, count_matches_cons, count_matches_app,
    count_matches_cons.
  pose proof (count_matches_nonneg text K1).
  pose proof (count_matches_nonneg text K2).
  pose proof (count_matches_nonneg text K3).
  pose proof (hits_pos _ _ Ha). pose proof (hits_pos _ _ Hb). lia.
Qed.

(** C10: the phrase "this organization has closed" holds the shorter
    phrase "has closed" of the same list, and each keyword is counted on
    its own, so one occurrence of the longer phrase in the combined text
    adds at least 2 to the raw Inactive score. *)
Theorem detect_activity_nested_phrases (text name : string) :
  PyStr.contains (combined_text name text) "this organization has closed" = true ->
  (1 <= hits (combined_text name text) "this organization has closed")%Z /\
  (1 <= hits (combined_text name text) "has closed")%Z /\
  exists sc conf v,
    detect_activity text name = Ok ("Inactive", sc, conf) /\
    dict_getitem sc "Inactive" = Ok v /\
    2 <= v.
Proof.
  intros Hlong. set (combined := combined_text name text) in *.
  assert (PyStr.contains combined "has closed" = true) as Hshort.
  { apply (contains_part combined "this organization " "has closed" "").
    exact Hlong. }
  split; [now apply hits_pos|]. split; [now apply hits_pos|].
  assert (2 <= count_matches combined INACTIVE_PHRASES)%Z as H2.
  { change INACTIVE_PHRASES with
      (["has now closed"]
       ++ "has closed"
       :: ["ceased operations"; "ceased to operate"; "no longer operating";
           "no longer exists"; "has been wound up"; "has now been wound up";
           "this organisation has closed"]
       ++ "this organization has closed"
       :: ["was dissolved"; "has been dissolved"; "has now been dissolved";
           "dissolved on"])%list.
    now apply count_matches_two. }
  assert (2 <= inactive_total combined)%Z as Htot.
  { rewrite inactive_total_eq.
    pose proof (count_matches_nonneg combined ARCHIVE_PHRASES). lia. }
  rewrite detect_activity_inactive by (fold combined; lia). fold combined.
  eexists _, _, _. split; [reflexivity|]. split; [reflexivity|].
  unfold float, Qle. simpl. lia.
Qed.

Lemma detect_activity_nested_phrases_witness :
  exists sc conf v,
    detect_activity "this organization has closed" "x"
    = Ok ("Inactive", sc, conf) /\
    dict_getitem sc "Inactive" = Ok v /\
    2 <= v.
Proof.
  destruct (detect_activity_nested_phrases "this organization has closed" "x")
    as (_ & _ & H); [reflexivity | exact H].
Defined.

(** [detect_activity] always returns, with a percentage as confidence. *)
Lemma detect_activity_total (text name : string) :
  exists label sc conf,
    detect_activity text name = Ok (label, sc, conf) /\ 0 <= conf <= 100.
Proof.
  unfold detect_activity. dict_simpl.
  rewrite !inactive_hits_sum.
  pose proof (float_nonneg _ (inactive_total_nonneg (combined_text name text))).
  destruct (Qgtb _ 0); [|destruct (PyStr.truthy _)];
    eexists _, _, _; (split; [reflexivity|]);
    (apply dict_get_normalize_range; [|split; discriminate]);
    dict_simpl; repeat constructor; solve [assumption | discriminate].
Qed.

(** ** Public entrypoint *)

(** C9: [classify_organization] always returns a record, and each of its
    three confidence values is a number between 0 and 100. *)
Theorem classify_confidence_range
        (fetch_url : string -> string) (name url : string) :
  exists r,
    classify_organization fetch_url name url = Ok r /\
    0 <= conf_religion (confidence r) <= 100 /\
    0 <= conf_type (confidence r) <= 100 /\
    0 <= conf_activity (confidence r) <= 100.
Proof.
  unfold classify_organization.
  destruct (detect_religion_total (fetch_url url) name)
    as (rl & rs & rc & -> & Hr). cbn [bind].
  destruct (detect_type_total (fetch_url url) name rl)
    as (tl & ts & tc & -> & Ht). cbn [bind].
  destruct (detect_activity_total (fetch_url url) name)
    as (al & asc & ac & -> & Ha). cbn [bind].
  eexists. split; [reflexivity|]. cbn [confidence conf_religion conf_type conf_activity].
  auto.
Qed.

(** C1 (the code at the scenario): with the name "Global Relief Network"
    and an empty fetched text the religion is Other/Unknown with
    confidence 0 and the type is Not-FB with the Not-FB accumulator at 1,
    but the activity status is Likely active, not Unknown: the combined
    text still holds the lower-cased name. *)
Theorem classify_global_relief_network
        (fetch_url : string -> string) (url : string) :
  fetch_url url = "" ->
  exists r,
    classify_organization fetch_url "Global Relief Network" url = Ok r /\
    religion r = "Other/Unknown" /\
    conf_religion (confidence r) == 0 /\
    fb_type r = "Not-FB" /\
    dict_get (scores_type (scores r)) "Not-FB" 0 == 1 /\
    PyStr.strip (combined_text "Global Relief Network" "")
    = "global relief network" /\
    activity_status r = "Likely active" /\
    activity_status r <> "Unknown".
Proof.
  intros Hfetch. unfold classify_organization. rewrite Hfetch.
  vm_compute. eexists. split; [reflexivity|].
  repeat split; try reflexivity. discriminate.
Qed.

Lemma classify_global_relief_network_witness :
  exists r,
    classify_organization (fun _ => "") "Global Relief Network"
                          "https://example.org" = Ok r /\
    activity_status r = "Likely active".
Proof.
  destruct (classify_global_relief_network (fun _ => "") "https://example.org")
    as (r & Hr & H); [reflexivity|].
  exists r. split; [exact Hr|]. apply H.
Defined.

(** ** The scenarios of the specification, run on the model *)

Example scenario_saint_mary_parish :
  exists rs rc ts tc,
    detect_religion "welcome to our parish, mass every sunday" "Saint Mary Parish"
    = Ok ("Christianity", rs, rc) /\ 0 < rc /\
    detect_type "welcome to our parish, mass every sunday" "Saint Mary Parish"
                "Christianity"
    = Ok ("FBCore", ts, tc) /\ 0 < tc /\
    dict_get ts "FBCore" 0 == 5.
Proof.
  vm_compute. eexists _, _, _, _.
  repeat split; reflexivity.
Qed.

Example scenario_interfaith_action_council :
  exists sc conf,
    detect_religion "we bring together synagogues, churches and mosques"
                    "Interfaith Action Council"
    = Ok ("Multi-faith", sc, conf) /\
    conf == 25.
Proof.
  vm_compute. eexists _, _. split; reflexivity.
Qed.

Example scenario_blank_name_and_text :
  exists sc conf,
    detect_activity "  " " " = Ok ("Unknown", sc, conf) /\ conf == 100.
Proof.
  vm_compute. eexists _, _. split; reflexivity.
Qed.

(** * Further properties of the code *)

(** ** Match counter *)

Lemma contains_empty_kw (s : string) : PyStr.contains s "" = true.
Proof. destruct s; reflexivity. Qed.

Lemma count_from_not_contains (kw s : string) :
  PyStr.contains s kw = false -> PyStr.count_from kw 0 s = 0%nat.
Proof.
  induction s as [|c s IH]; intros H; [reflexivity|].
  rewrite contains_unfold in H. apply orb_false_iff in H as [Hs Hc].
  cbn [PyStr.count_from]. rewrite Hs. auto.
Qed.

(** A keyword that [in] does not find is counted zero times by [count]:
    the guard of the loop leaves nothing out. *)
Lemma hits_eq_count (text kw : string) : hits text kw = PyStr.count text kw.
Proof.
  unfold hits. destruct (PyStr.contains text kw) eqn:E; [reflexivity|].
  destruct kw as [|k kw]; [now rewrite contains_empty_kw in E|].
  unfold PyStr.count. now rewrite count_from_not_contains.
Qed.

Lemma hits_zero_iff (text kw : string) :
  hits text kw = 0%Z <-> PyStr.contains text kw = false.
Proof.
  split; intros H.
  - destruct (PyStr.contains text kw) eqn:E; [|reflexivity].
    pose proof (hits_pos _ _ E). lia.
  - unfold hits. now rewrite H.
Qed.

Lemma startswith_length (s kw : string) :
  PyStr.startswith s kw = true -> (String.length kw <= String.length s)%nat.
Proof.
  revert s. induction kw as [|k kw IH]; intros s H; simpl; [lia|].
  destruct s as [|c s]; simpl in *; [discriminate|].
  apply andb_true_iff in H as [_ H]. specialize (IH _ H). lia.
Qed.

(** The matches that [count] counts do not overlap: together they fit
    into what is left of the text. *)
Lemma count_from_fits (kw s : string) (skip : nat) :
  (PyStr.count_from kw skip s * String.length kw
   <= String.length s - skip)%nat.
Proof.
  revert skip. induction s as [|c s IH]; intros skip; [simpl; lia|].
  cbn [PyStr.count_from]. destruct skip as [|k].
  - destruct (PyStr.startswith (String c s) kw) eqn:E.
    + apply startswith_length in E. simpl in E.
      specialize (IH (Nat.pred (String.length kw))). simpl. lia.
    + specialize (IH 0%nat). simpl. lia.
  - specialize (IH k). simpl. lia.
Qed.

Lemma count_le_length (text kw : string) :
  kw <> "" -> (PyStr.count text kw <= Z.of_nat (String.length text))%Z.
Proof.
  intros Hkw. destruct kw as [|k kw]; [contradiction|].
  unfold PyStr.count.
  pose proof (count_from_fits (String k kw) text 0) as H.
  simpl in H. nia.
Qed.

Lemma count_matches_zero_no_match (text : string) (K : list string) :
  count_matches text K = 0%Z <->
  (forall kw, In kw K -> PyStr.contains text kw = false).
Proof.
  induction K as [|k K IH].
  - split; [intros _ kw [] | reflexivity].
  - rewrite count_matches_cons.
    pose proof (hits_nonneg text k). pose proof (count_matches_nonneg text K).
    split.
    + intros H1 kw [<-|Hin].
      * apply hits_zero_iff. lia.
      * apply IH; [lia | assumption].
    + intros Hall.
      assert (hits text k = 0%Z) by (apply hits_zero_iff, Hall; now left).
      assert (count_matches text K = 0%Z)
        by (apply IH; intros kw Hin; apply Hall; now right).
      lia.
Qed.

(** X1: [count_matches] is 0 exactly when no keyword of the list occurs in
    the text. *)
Theorem count_matches_zero_iff (text : string) (K : list string) :
  count_matches text K = 0%Z <->
  (forall kw, In kw K -> PyStr.contains text kw = false).
Proof. apply count_matches_zero_no_match. Qed.

Lemma count_matches_perm (text : string) (K1 K2 : list string) :
  Permutation K1 K2 -> count_matches text K1 = count_matches text K2.
Proof.
  induction 1 as [|k A B _ IH|a b A|A B C _ IH1 _ IH2].
  - reflexivity.
  - now rewrite !count_matches_cons, IH.
  - rewrite !count_matches_cons. lia.
  - now rewrite IH1.
Qed.

(** X2: the total of [count_matches] does not depend on the order of the
    keywords, and the total for two lists put end to end is the sum of the
    two totals. *)
Theorem count_matches_order_irrelevant (text : string) (K1 K2 : list string) :
  count_matches text (K1 ++ K2)
  = (count_matches text K1 + count_matches text K2)%Z /\
  (Permutation K1 K2 -> count_matches text K1 = count_matches text K2).
Proof.
  split; [apply count_matches_app | apply count_matches_perm].
Qed.

Lemma count_matches_order_irrelevant_witness :
  count_matches "a church and a mosque" ["church"; "mosque"; "a"]
  = count_matches "a church and a mosque" ["a"; "church"; "mosque"].
Proof.
  apply (count_matches_order_irrelevant
           "a church and a mosque" ["church"; "mosque"; "a"]
           ["a"; "church"; "mosque"]).
  apply Permutation_sym.
  exact (Permutation_cons_append ["church"; "mosque"] "a").
Defined.

(** X3: a keyword that is not empty is counted at most as often as its
    length fits into the length of the text, for its matches do not
    overlap; so a list without the empty keyword counts at most the length
    of the text for each of its keywords. *)
Theorem count_matches_bounded (text : string) (K : list string) :
  ~ In "" K ->
  (forall kw, In kw K ->
     (PyStr.count text kw * Z.of_nat (String.length kw)
      <= Z.of_nat (String.length text))%Z) /\
  (count_matches text K
   <= Z.of_nat (List.length K) * Z.of_nat (String.length text))%Z.
Proof.
  intros Hne. split.
  - intros kw Hin. destruct kw as [|k kw]; [contradiction|].
    unfold PyStr.count.
    pose proof (count_from_fits (String k kw) text 0) as H.
    rewrite Nat.sub_0_r in H. lia.
  - induction K as [|k K IH]; [rewrite count_matches_nil; simpl; lia|].
    rewrite count_matches_cons, hits_eq_count.
    assert (k <> "") as Hk by (intros ->; apply Hne; now left).
    pose proof (count_le_length text k Hk).
    assert (~ In "" K) as HK by (intros ?; apply Hne; now right).
    specialize (IH HK). cbn [List.length]. lia.
Qed.

Lemma count_matches_bounded_witness :
  (count_matches "aaaa" ["aa"; "a"] <= 2 * 4)%Z.
Proof.
  apply (count_matches_bounded "aaaa" ["aa"; "a"]).
  simpl. intros [H|[H|H]]; [discriminate H | discriminate H | exact H].
Defined.

Lemma count_matches_zero_iff_witness :
  count_matches "global relief network" ["church"; "mosque"] = 0%Z.
Proof.
  apply (count_matches_zero_iff "global relief network" ["church"; "mosque"]).
  intros kw [<-|[<-|[]]]; reflexivity.
Defined.

(** ** Religion detection *)

Lemma contains_app_l (s t kw : string) :
  PyStr.contains s kw = true -> PyStr.contains (s ++ t) kw = true.
Proof.
  intros H. apply contains_split in H as (pre & post & ->).
  rewrite !str_app_assoc. apply contains_app.
Qed.

(** A marker in the name is a keyword of the Multi-faith lexicon, and the
    name is part of the combined text. *)
Lemma name_marker_counted (text name : string) :
  name_has_marker name = true ->
  1 <= religion_count (combined_text name text) "Multi-faith".
Proof.
  intros H. unfold name_has_marker in H.
  apply float_ge_1. unfold combined_text.
  apply orb_true_iff in H as [H|H]; [apply orb_true_iff in H as [H|H]|].
  - apply (count_matches_pos _ "interfaith");
      [simpl; auto | now apply contains_app_l].
  - apply (count_matches_pos _ "multi-faith");
      [simpl; auto 6 | now apply contains_app_l].
  - apply (count_matches_pos _ "multi faith");
      [simpl; auto 6 | now apply contains_app_l].
Qed.

Lemma max_main_cases (combined : string) (top : string * Q) :
  max_main (religion_scores combined) = Ok top ->
  (top = ("Islam", religion_count combined "Islam")
   \/ top = ("Christianity", religion_count combined "Christianity")
   \/ top = ("Judaism", religion_count combined "Judaism")) /\
  religion_count combined "Islam" <= snd top /\
  religion_count combined "Christianity" <= snd top /\
  religion_count combined "Judaism" <= snd top.
Proof.
  intros H. unfold max_main in H. rewrite main_scores_eq in H.
  pose proof (max_by_value_in _ _ H) as Hin.
  apply max_by_value_first in H as (pre & post & Heq & Hpre & Hpost).
  split.
  - destruct Hin as [<-|[<-|[<-|[]]]]; auto.
  - assert (forall x, In x [("Islam", religion_count combined "Islam");
                            ("Christianity", religion_count combined "Christianity");
                            ("Judaism", religion_count combined "Judaism")] ->
                      snd x <= snd top) as Hle.
    { intros x Hx. rewrite Heq in Hx.
      apply in_app_or in Hx as [Hx|[<-|Hx]].
      - rewrite Forall_forall in Hpre. apply Qlt_le_weak. now apply Hpre.
      - lra.
      - rewrite Forall_forall in Hpost. now apply Hpost. }
    repeat split.
    + apply (Hle ("Islam", _)). simpl. auto.
    + apply (Hle ("Christianity", _)). simpl. auto.
    + apply (Hle ("Judaism", _)). simpl. auto.
Qed.

Lemma religion_positive_total (combined : string) :
  positive_total (religion_scores combined) == religion_total combined.
Proof.
  rewrite positive_total_nonneg_values by apply religion_scores_nonneg.
  rewrite religion_scores_eq. unfold religion_total, Qsum. simpl. ring.
Qed.

(** The normalized share of each of the four lexicon keys. *)
Lemma religion_share (combined k : string) (default : Q) :
  In k ["Islam"; "Christianity"; "Judaism"; "Multi-faith"] ->
  0 < religion_total combined ->
  dict_get (normalize_scores (religion_scores combined)) k default
  == (religion_count combined k / religion_total combined) * 100.
Proof.
  intros Hk Hpos. pose proof (religion_positive_total combined) as Ht.
  rewrite normalize_scores_pos by lra.
  rewrite religion_scores_eq at 1.
  destruct Hk as [<-|[<-|[<-|[<-|[]]]]]; dict_simpl; now rewrite Ht.
Qed.

(** No score map has the key that the generic fallback looks up. *)
Lemma generic_fallback_confidence (combined : string) (g : Q) :
  dict_get
    (normalize_scores (dict_set (religion_scores combined) "GenericFaith" g))
    "Other/Unknown" 0 = 0.
Proof.
  unfold normalize_scores.
  destruct (Qle_bool _ 0); rewrite religion_scores_eq; reflexivity.
Qed.

(** The branch that [detect_religion] takes, and what it returns there. *)
Lemma detect_religion_cases (text name : string) (top : string * Q) :
  max_main (religion_scores (combined_text name text)) = Ok top ->
  (snd top == 0 /\
   religion_count (combined_text name text) "Multi-faith" == 0 /\
   generic_score (combined_text name text) == 0 /\
   detect_religion text name
   = Ok ("Other/Unknown", religion_scores (combined_text name text), 0))
  \/
  (name_has_marker name = true /\
   detect_religion text name
   = Ok ("Multi-faith", religion_scores (combined_text name text),
         dict_get (normalize_scores (religion_scores (combined_text name text)))
                  "Multi-faith" 80))
  \/
  (name_has_marker name = false /\ 0 < snd top /\
   detect_religion text name
   = Ok (fst top, religion_scores (combined_text name text),
         dict_get (normalize_scores (religion_scores (combined_text name text)))
                  (fst top) 0))
  \/
  (name_has_marker name = false /\ snd top == 0 /\
   0 < religion_count (combined_text name text) "Multi-faith" /\
   detect_religion text name
   = Ok ("Multi-faith", religion_scores (combined_text name text),
         dict_get (normalize_scores (religion_scores (combined_text name text)))
                  "Multi-faith" 0))
  \/
  (name_has_marker name = false /\ snd top == 0 /\
   religion_count (combined_text name text) "Multi-faith" == 0 /\
   0 < generic_score (combined_text name text) /\
   detect_religion text name
   = Ok ("Other/Unknown",
         dict_set (religion_scores (combined_text name text))
                  "GenericFaith" (generic_score (combined_text name text)),
         0)).
Proof.
  intros Hmax.
  pose proof (name_marker_counted text name) as Hmark.
  unfold detect_religion. rewrite Hmax. cbn [bind]. rewrite multi_score_eq.
  set (combined := combined_text name text) in *.
  destruct (max_main_cases combined top Hmax) as (_ & HI & _).
  pose proof (religion_count_nonneg combined "Islam").
  pose proof (religion_count_nonneg combined "Multi-faith") as HM.
  pose proof (generic_score_nonneg combined) as HG.
  assert (0 <= snd top) as Htop by lra.
  destruct (name_has_marker name) eqn:Hm.
  - specialize (Hmark eq_refl).
    assert (Qeqb (religion_count combined "Multi-faith") 0 = false) as ->
        by (apply Qeqb_false; lra).
    rewrite andb_false_r. cbn [andb]. right; left. auto.
  - clear Hmark.
    destruct (Qlt_le_dec 0 (snd top)) as [Hpos|Hzero].
    + assert (Qeqb (snd top) 0 = false) as -> by (apply Qeqb_false; lra).
      rewrite andb_false_r. cbn [andb].
      right; right; left. repeat split; try assumption.
      destruct (_ || _); reflexivity.
    + assert (snd top == 0) as Hz by lra.
      assert (Qeqb (snd top) 0 = true) as -> by now apply Qeqb_true.
      assert (Qle_bool 2 (snd top) = false) as ->
          by (apply Qle_bool_false; lra).
      assert (Qgtb (snd top) (religion_count combined "Multi-faith") = false)
        as -> by (apply Qgtb_false; lra).
      cbn [andb orb]. rewrite andb_true_r.
      destruct (Qlt_le_dec 0 (religion_count combined "Multi-faith"))
        as [HMpos|HMzero].
      * assert (Qeqb (religion_count combined "Multi-faith") 0 = false) as ->
            by (apply Qeqb_false; lra).
        assert (Qgtb (religion_count combined "Multi-faith") 0 = true) as ->
            by now apply Qgtb_true.
        cbn [andb]. right; right; right; left. auto.
      * assert (religion_count combined "Multi-faith" == 0) as HMz by lra.
        assert (Qeqb (religion_count combined "Multi-faith") 0 = true) as ->
            by now apply Qeqb_true.
        assert (Qgtb (religion_count combined "Multi-faith") 0 = false) as ->
            by (apply Qgtb_false; lra).
        cbn [andb].
        destruct (Qlt_le_dec 0 (generic_score combined)) as [HGpos|HGzero].
        -- assert (Qeqb (generic_score combined) 0 = false) as ->
               by (apply Qeqb_false; lra).
           assert (Qgtb (generic_score combined) 0 = true) as ->
               by now apply Qgtb_true.
           right; right; right; right.
           repeat split; try assumption.
           now rewrite generic_fallback_confidence.
        -- assert (Qeqb (generic_score combined) 0 = true) as ->
               by (apply Qeqb_true; lra).
           left. repeat split; lra.
Qed.

(** C5: ties among the main religions go to the first listed.  The top
    main religion is the first item, in the order Islam, Christianity,
    Judaism, whose raw score is the greatest: the items before it are
    strictly smaller and the items after it at most equal.  Whenever
    [detect_religion] returns a main religion, it is that one, and it
    returns it whenever the name holds no marker and the top score is
    positive; in particular, with Islam and Christianity tied at 2,
    Judaism at most 2 and no marker in the name, the label is Islam. *)
Theorem detect_religion_tie_break (text name : string) :
  dict_keys (main_scores (religion_scores (combined_text name text)))
  = ["Islam"; "Christianity"; "Judaism"] /\
  exists top pre post label sc conf,
    max_main (religion_scores (combined_text name text)) = Ok top /\
    main_scores (religion_scores (combined_text name text))
    = (pre ++ top :: post)%list /\
    Forall (fun x => snd x < snd top) pre /\
    Forall (fun x => snd x <= snd top) post /\
    detect_religion text name = Ok (label, sc, conf) /\
    (In label main_rels -> label = fst top) /\
    (name_has_marker name = false -> 0 < snd top -> label = fst top) /\
    (name_has_marker name = false ->
     religion_count (combined_text name text) "Islam" == 2 ->
     religion_count (combined_text name text) "Christianity" == 2 ->
     religion_count (combined_text name text) "Judaism" <= 2 ->
     label = "Islam").
Proof.
  set (combined := combined_text name text).
  split; [reflexivity|].
  destruct (max_main_ok combined) as [top Htop].
  destruct (max_by_value_first _ _ Htop) as (pre & post & Heq & Hpre & Hpost).
  destruct (max_main_cases combined top Htop) as (Hwhich & HIt & HCt & HJt).
  assert (name_has_marker name = false ->
          religion_count combined "Islam" == 2 ->
          religion_count combined "Christianity" == 2 ->
          religion_count combined "Judaism" <= 2 ->
          fst top = "Islam" /\ 0 < snd top) as Htie.
  { intros _ HI HC HJ.
    assert (max_main (religion_scores combined)
            = Ok ("Islam", religion_count combined "Islam")) as Hmax.
    { unfold max_main. rewrite main_scores_eq.
      cbn [max_by_value max_from snd].
      assert (Qgtb (religion_count combined "Christianity")
                   (religion_count combined "Islam") = false) as ->
          by (apply Qgtb_false; lra).
      assert (Qgtb (religion_count combined "Judaism")
                   (religion_count combined "Islam") = false) as ->
          by (apply Qgtb_false; lra).
      reflexivity. }
    rewrite Htop in Hmax. injection Hmax as ->. cbn [fst snd].
    split; [reflexivity | lra]. }
  pose proof (detect_religion_cases text name top Htop) as Hcases.
  fold combined in Hcases.
  exists top, pre, post.
  destruct Hcases
    as [(Hz & _ & _ & Hres)|[(Hm & Hres)|[(Hm & Hpos & Hres)
        |[(Hm & Hz & _ & Hres)|(Hm & Hz & _ & _ & Hres)]]]];
    rewrite Hres; eexists _, _, _;
    (split; [exact Htop|]); (split; [exact Heq|]);
    (split; [exact Hpre|]); (split; [exact Hpost|]);
    (split; [reflexivity|]).
  - split; [intros [H|[H|[H|[]]]]; discriminate H|].
    split; [intros _ Hpos; exfalso; lra|].
    intros Hm HI HC HJ. destruct (Htie Hm HI HC HJ) as [_ Hpos].
    exfalso. lra.
  - split; [intros [H|[H|[H|[]]]]; discriminate H|].
    split; intros Hf; congruence.
  - split; [reflexivity|]. split; [reflexivity|].
    intros _ HI HC HJ. now destruct (Htie Hm HI HC HJ).
  - split; [intros [H|[H|[H|[]]]]; discriminate H|].
    split; [intros _ Hpos; exfalso; lra|].
    intros _ HI HC HJ. destruct (Htie Hm HI HC HJ) as [_ Hpos].
    exfalso. lra.
  - split; [intros [H|[H|[H|[]]]]; discriminate H|].
    split; [intros _ Hpos; exfalso; lra|].
    intros _ HI HC HJ. destruct (Htie Hm HI HC HJ) as [_ Hpos].
    exfalso. lra.
Qed.

Lemma detect_religion_tie_break_witness :
  (exists sc conf,
      detect_religion "mosque masjid church chapel" "x"
      = Ok ("Islam", sc, conf)) /\
  (exists sc conf,
      detect_religion "a church next to a synagogue" "x"
      = Ok ("Christianity", sc, conf)).
Proof.
  split.
  - destruct (detect_religion_tie_break "mosque masjid church chapel" "x")
      as (_ & top & pre & post & label & sc & conf
          & _ & _ & _ & _ & Hres & _ & _ & Htie).
    exists sc, conf. rewrite Hres.
    rewrite (Htie eq_refl); [reflexivity | reflexivity | reflexivity|].
    discriminate.
  - destruct (detect_religion_tie_break "a church next to a synagogue" "x")
      as (_ & top & pre & post & label & sc & conf
          & Htop & _ & _ & _ & Hres & _ & Hmain & _).
    exists sc, conf. rewrite Hres.
    vm_compute in Htop. injection Htop as <-.
    rewrite (Hmain eq_refl); [reflexivity | reflexivity].
Defined.

Lemma share_pos (v t : Q) : 0 < v -> 0 < t -> 0 < (v / t) * 100.
Proof.
  intros Hv Ht. apply Qmult_lt_0_compat; [|reflexivity].
  apply Qlt_shift_div_l; [assumption | lra].
Qed.

Lemma religion_total_bounds (combined : string) :
  0 <= religion_count combined "Islam" /\
  0 <= religion_count combined "Christianity" /\
  0 <= religion_count combined "Judaism" /\
  0 <= religion_count combined "Multi-faith".
Proof. repeat split; apply religion_count_nonneg. Qed.

(** X8: a name whose lower-case form holds "interfaith", "multi-faith" or
    "multi faith" is labelled Multi-faith whatever the text is.  The marker
    is itself counted as a Multi-faith keyword, so the raw scores are
    returned as counted, and the confidence is the positive Multi-faith
    share, never the default of the lookup. *)
Theorem detect_religion_marker_always (text name : string) :
  name_has_marker name = true ->
  exists conf,
    detect_religion text name
    = Ok ("Multi-faith", religion_scores (combined_text name text), conf) /\
    1 <= religion_count (combined_text name text) "Multi-faith" /\
    conf == (religion_count (combined_text name text) "Multi-faith"
             / religion_total (combined_text name text)) * 100 /\
    0 < conf.
Proof.
  intros Hm. pose proof (name_marker_counted text name Hm) as HM.
  set (combined := combined_text name text) in *.
  destruct (max_main_ok combined) as [top Htop].
  destruct (religion_total_bounds combined) as (HI & HC & HJ & _).
  assert (0 < religion_total combined) as Hpos by (unfold religion_total; lra).
  pose proof (detect_religion_cases text name top Htop) as Hcases.
  fold combined in Hcases.
  destruct Hcases
    as [(_ & Hz & _)|[(_ & Hres)|[(Hf & _)|[(Hf & _)|(Hf & _)]]]]; try congruence; [lra|].
  eexists. split; [exact Hres|]. split; [exact HM|].
  assert (dict_get (normalize_scores (religion_scores combined)) "Multi-faith" 80
          == (religion_count combined "Multi-faith" / religion_total combined)
             * 100) as Hc
      by (apply religion_share; [simpl; auto | assumption]).
  split; [exact Hc|]. rewrite Hc. apply share_pos; lra.
Qed.

Lemma detect_religion_marker_always_witness :
  exists conf,
    detect_religion "" "Multi-Faith Forum"
    = Ok ("Multi-faith", religion_scores (combined_text "Multi-Faith Forum" ""),
          conf) /\
    0 < conf.
Proof.
  destruct (detect_religion_marker_always "" "Multi-Faith Forum")
    as (conf & H & _ & _ & Hpos); [reflexivity|].
  exists conf. split; [exact H | exact Hpos].
Defined.

(** X9: when the name holds no marker and some main-religion keyword
    occurs, the label is the top main religion, whatever the multi-faith
    and generic-faith counts are, and the confidence is its positive share
    of the four raw scores. *)
Theorem detect_religion_main_wins (text name : string) (top : string * Q) :
  name_has_marker name = false ->
  max_main (religion_scores (combined_text name text)) = Ok top ->
  0 < snd top ->
  exists conf,
    detect_religion text name
    = Ok (fst top, religion_scores (combined_text name text), conf) /\
    In (fst top) main_rels /\
    snd top = religion_count (combined_text name text) (fst top) /\
    conf == (snd top / religion_total (combined_text name text)) * 100 /\
    0 < conf.
Proof.
  intros Hm Htop Hpos.
  set (combined := combined_text name text) in *.
  destruct (religion_total_bounds combined) as (HI & HC & HJ & HM).
  destruct (max_main_cases combined top Htop) as (Hwhich & _).
  pose proof (detect_religion_cases text name top Htop) as Hcases.
  fold combined in Hcases.
  destruct Hcases
    as [(Hz & _)|[(Ht & _)|[(_ & _ & Hres)|[(_ & Hz & _)|(_ & Hz & _)]]]]; try congruence; try lra.
  eexists. split; [exact Hres|].
  assert (In (fst top) main_rels /\
          snd top = religion_count combined (fst top)) as [Hin Heq]
      by (destruct Hwhich as [-> | [-> | ->]]; simpl; auto).
  split; [exact Hin|]. split; [exact Heq|].
  assert (0 < religion_total combined) as Htot.
  { unfold religion_total.
    destruct Hwhich as [-> | [-> | ->]]; cbn [snd] in Hpos; lra. }
  assert (dict_get (normalize_scores (religion_scores combined)) (fst top) 0
          == (snd top / religion_total combined) * 100) as Hc.
  { rewrite Heq. apply religion_share; [|assumption].
    destruct Hwhich as [-> | [-> | ->]]; simpl; auto. }
  split; [exact Hc|]. rewrite Hc. now apply share_pos.
Qed.

Lemma detect_religion_main_wins_witness :
  exists conf,
    detect_religion
      "our church hosts interfaith and multi-faith and inter-faith events"
      "Community Hall"
    = Ok ("Christianity",
          religion_scores
            (combined_text "Community Hall"
               "our church hosts interfaith and multi-faith and inter-faith events"),
          conf) /\
    0 < conf.
Proof.
  destruct (detect_religion_main_wins
              "our church hosts interfaith and multi-faith and inter-faith events"
              "Community Hall" ("Christianity", 1))
    as (conf & H & _ & _ & _ & Hpos); [reflexivity | reflexivity | reflexivity|].
  exists conf. split; [exact H | exact Hpos].
Defined.

(** X10: the label is Other/Unknown exactly when none of the four raw
    religion scores is positive, and then the confidence is 0, with or
    without generic-faith keywords in the text. *)
Theorem detect_religion_unknown_iff (text name : string) :
  exists label sc conf,
    detect_religion text name = Ok (label, sc, conf) /\
    (label = "Other/Unknown" <->
     religion_total (combined_text name text) == 0) /\
    (label = "Other/Unknown" -> conf = 0).
Proof.
  set (combined := combined_text name text).
  destruct (max_main_ok combined) as [top Htop].
  destruct (religion_total_bounds combined) as (HI & HC & HJ & HM).
  destruct (max_main_cases combined top Htop) as (Hwhich & HIt & HCt & HJt).
  pose proof (name_marker_counted text name) as Hmark. fold combined in Hmark.
  pose proof (detect_religion_cases text name top Htop) as Hcases.
  fold combined in Hcases.
  destruct Hcases
    as [(Hz & HMz & _ & Hres)|[(Hm & Hres)|[(_ & Hpos & Hres)
        |[(_ & Hz & HMpos & Hres)|(_ & Hz & HMz & _ & Hres)]]]]; rewrite Hres; eexists _, _, _;
    (split; [reflexivity|]); unfold religion_total.
  - split; [split; [intros _; lra | reflexivity] | reflexivity].
  - specialize (Hmark Hm).
    split; [split; [discriminate | intros; lra] | discriminate].
  - destruct Hwhich as [-> | [-> | ->]]; cbn [fst snd] in *;
      (split; [split; [discriminate | intros; lra] | discriminate]).
  - split; [split; [discriminate | intros; lra] | discriminate].
  - split; [split; [intros _; lra | reflexivity] | reflexivity].
Qed.

Lemma detect_religion_unknown_iff_witness :
  exists sc conf,
    detect_religion "a faith-based congregation at worship" "Hope"
    = Ok ("Other/Unknown", sc, conf) /\ conf = 0.
Proof.
  destruct (detect_religion_unknown_iff
              "a faith-based congregation at worship" "Hope")
    as (label & sc & conf & H & Hiff & Hconf).
  assert (label = "Other/Unknown") as Hl by (apply Hiff; reflexivity).
  exists sc, conf. split; [now rewrite <- Hl | now apply Hconf].
Defined.

(** X11: when no main-religion keyword occurs and some multi-faith keyword
    does, the label is Multi-faith with confidence 100. *)
Theorem detect_religion_multi_only (text name : string) :
  religion_count (combined_text name text) "Islam" == 0 ->
  religion_count (combined_text name text) "Christianity" == 0 ->
  religion_count (combined_text name text) "Judaism" == 0 ->
  0 < religion_count (combined_text name text) "Multi-faith" ->
  exists conf,
    detect_religion text name
    = Ok ("Multi-faith", religion_scores (combined_text name text), conf) /\
    conf == 100.
Proof.
  set (combined := combined_text name text). intros HI HC HJ HM.
  destruct (max_main_ok combined) as [top Htop].
  destruct (max_main_cases combined top Htop) as (Hwhich & _).
  assert (snd top == 0) as Hz
      by (destruct Hwhich as [-> | [-> | ->]]; assumption).
  assert (0 < religion_total combined) as Htot
      by (unfold religion_total; lra).
  assert (forall d,
             dict_get (normalize_scores (religion_scores combined))
                      "Multi-faith" d == 100) as Hc.
  { intros d. rewrite religion_share by (simpl; auto).
    unfold religion_total. rewrite HI, HC, HJ. field. lra. }
  pose proof (detect_religion_cases text name top Htop) as Hcases.
  fold combined in Hcases.
  destruct Hcases
    as [(_ & HMz & _)|[(_ & Hres)|[(_ & Hpos & _)
        |[(_ & _ & _ & Hres)|(_ & _ & HMz & _)]]]]; try lra;
    (eexists; split; [exact Hres | apply Hc]).
Qed.

Lemma detect_religion_multi_only_witness :
  exists conf,
    detect_religion "an inter-faith dialogue" "City Forum"
    = Ok ("Multi-faith",
          religion_scores (combined_text "City Forum" "an inter-faith dialogue"),
          conf) /\
    conf == 100.
Proof.
  apply (detect_religion_multi_only "an inter-faith dialogue" "City Forum");
    reflexivity.
Defined.

(** X12: the label is one of the five religion labels, and the raw-score
    map that comes back has the four lexicon keys in lexicon order, with
    the key GenericFaith after them only when the label is Other/Unknown
    and a generic-faith keyword occurs. *)
Theorem detect_religion_shape (text name : string) :
  exists label sc conf,
    detect_religion text name = Ok (label, sc, conf) /\
    In label ["Islam"; "Christianity"; "Judaism"; "Multi-faith";
              "Other/Unknown"] /\
    (dict_keys sc = ["Islam"; "Christianity"; "Judaism"; "Multi-faith"] \/
     (dict_keys sc = ["Islam"; "Christianity"; "Judaism"; "Multi-faith";
                      "GenericFaith"] /\
      label = "Other/Unknown" /\
      0 < generic_score (combined_text name text) /\
      dict_get sc "GenericFaith" 0 = generic_score (combined_text name text))).
Proof.
  set (combined := combined_text name text).
  destruct (max_main_ok combined) as [top Htop].
  destruct (max_main_cases combined top Htop) as (Hwhich & _).
  pose proof (detect_religion_cases text name top Htop) as Hcases.
  fold combined in Hcases.
  destruct Hcases
    as [(_ & _ & _ & Hres)|[(_ & Hres)|[(_ & _ & Hres)
        |[(_ & _ & _ & Hres)|(_ & _ & _ & Hg & Hres)]]]]; rewrite Hres; eexists _, _, _;
    (split; [reflexivity|]).
  - split; [simpl; auto 6 | left; reflexivity].
  - split; [simpl; auto 6 | left; reflexivity].
  - split; [|left; reflexivity].
    destruct Hwhich as [-> | [-> | ->]]; simpl; auto.
  - split; [simpl; auto 6 | left; reflexivity].
  - split; [simpl; auto 6 | right].
    split; [reflexivity|]. split; [reflexivity|]. split; [exact Hg|].
    reflexivity.
Qed.

(** ** Type detection *)

Lemma max_by_value_ge (d : dict) (top : string * Q) :
  max_by_value d = Ok top ->
  In top d /\ forall x, In x d -> snd x <= snd top.
Proof.
  intros H. split; [now apply max_by_value_in|].
  apply max_by_value_first in H as (pre & post & -> & Hpre & Hpost).
  intros x Hx. apply in_app_or in Hx as [Hx|[<-|Hx]].
  - rewrite Forall_forall in Hpre. apply Qlt_le_weak. now apply Hpre.
  - lra.
  - rewrite Forall_forall in Hpost. now apply Hpost.
Qed.

Lemma dict_get_in_nodup (d : dict) (k : string) (v default : Q) :
  NoDup (dict_keys d) -> In (k, v) d -> dict_get d k default = v.
Proof.
  unfold dict_keys. induction d as [|[k' v'] d IH]; intros Hnd Hin;
    [contradiction|].
  cbn [map fst] in Hnd. inversion Hnd as [|? ? Hnotin Hnd']; subst.
  cbn [dict_get]. destruct Hin as [Heq|Hin].
  - injection Heq as -> ->. now rewrite String.eqb_refl.
  - destruct (String.eqb_spec k' k) as [->|_]; [|now apply IH].
    exfalso. apply Hnotin. now apply (in_map fst) in Hin.
Qed.

(** The normalized share, looked up under a key of the dict. *)
Lemma normalize_share_in (d : dict) (k : string) (v default : Q) :
  NoDup (dict_keys d) -> In (k, v) d -> 0 < positive_total d ->
  dict_get (normalize_scores d) k default = (v / positive_total d) * 100.
Proof.
  intros Hnd Hin Hpos. apply dict_get_in_nodup.
  - now rewrite normalize_scores_keys.
  - rewrite normalize_scores_pos by assumption.
    now apply (in_map (fun kv => (fst kv, (snd kv / positive_total d) * 100)))
      in Hin.
Qed.

(** The score map of [detect_type] before the winner is taken. *)
Lemma type_scores_form (combined religion : string) :
  exists n,
    (if all_but_notfb_zero (type_accumulators combined religion)
     then dict_set (type_accumulators combined religion) "Not-FB" 1
     else type_accumulators combined religion)
    = [ ("FBCore", 0 + float (core_hits combined));
        ("FBOrigin", 0 + float (count_matches combined origin_keywords));
        ("FBCommunity", 0 + comm_hits combined religion);
        ("Not-FB", n) ] /\
    ((n = 1 /\ core_hits combined = 0%Z /\
      count_matches combined origin_keywords = 0%Z /\
      comm_hits combined religion == 0)
     \/
     (n = 0 /\ ~ (core_hits combined = 0%Z /\
                  count_matches combined origin_keywords = 0%Z /\
                  comm_hits combined religion == 0))).
Proof.
  assert (all_but_notfb_zero (type_accumulators combined religion)
          = Qeqb (0 + float (core_hits combined)) 0
            && (Qeqb (0 + float (count_matches combined origin_keywords)) 0
                && (Qeqb (0 + comm_hits combined religion) 0 && true)))
    as -> by reflexivity.
  assert (forall z, 0 + float z == 0 <-> z = 0%Z) as Hz.
  { intros z. unfold float, Qeq, Qplus. simpl. lia. }
  destruct (Qeqb (0 + float (core_hits combined)) 0) eqn:E1;
    [destruct (Qeqb (0 + float (count_matches combined origin_keywords)) 0)
              eqn:E2;
     [destruct (Qeqb (0 + comm_hits combined religion) 0) eqn:E3|]|];
    cbn [andb]; rewrite ?Qeqb_true, ?Qeqb_false, ?Hz in *.
  - exists 1. split; [reflexivity|]. left. repeat split; try assumption. lra.
  - exists 0. split; [reflexivity|]. right. split; [reflexivity|].
    intros (_ & _ & H). apply E3. lra.
  - exists 0. split; [reflexivity|]. right. split; [reflexivity|].
    intros (_ & H & _). now apply E2.
  - exists 0. split; [reflexivity|]. right. split; [reflexivity|].
    intros (H & _). now apply E1.
Qed.

(** What [detect_type] returns: the winner [top] of a score map with the
    four type keys, its positive raw score, and its share as confidence. *)
Lemma detect_type_result (text name religion : string) :
  exists n top,
    let sc := [ ("FBCore", 0 + float (core_hits (combined_text name text)));
                ("FBOrigin",
                 0 + float (count_matches (combined_text name text)
                                          origin_keywords));
                ("FBCommunity", 0 + comm_hits (combined_text name text) religion);
                ("Not-FB", n) ] in
    detect_type text name religion
    = Ok (fst top, sc, (snd top / positive_total sc) * 100) /\
    max_by_value sc = Ok top /\
    0 < snd top /\
    positive_total sc
    == float (core_hits (combined_text name text))
       + float (count_matches (combined_text name text) origin_keywords)
       + comm_hits (combined_text name text) religion + n /\
    ((n = 1 /\ top = ("Not-FB", 1) /\
      core_hits (combined_text name text) = 0%Z /\
      count_matches (combined_text name text) origin_keywords = 0%Z /\
      comm_hits (combined_text name text) religion == 0)
     \/
     (n = 0 /\ fst top <> "Not-FB" /\
      ~ (core_hits (combined_text name text) = 0%Z /\
         count_matches (combined_text name text) origin_keywords = 0%Z /\
         comm_hits (combined_text name text) religion == 0))).
Proof.
  set (combined := combined_text name text).
  rewrite detect_type_eq. fold combined. cbv zeta.
  destruct (type_scores_form combined religion) as (n & -> & Hn).
  pose proof (float_nonneg _ (core_hits_nonneg combined)) as Ha.
  pose proof (float_nonneg _ (count_matches_nonneg combined origin_keywords))
    as Hb.
  pose proof (comm_hits_nonneg combined religion) as Hm.
  set (a := float (core_hits combined)) in *.
  set (b := float (count_matches combined origin_keywords)) in *.
  set (m := comm_hits combined religion) in *.
  set (sc := [("FBCore", 0 + a); ("FBOrigin", 0 + b); ("FBCommunity", 0 + m);
              ("Not-FB", n)]).
  assert (0 <= n) as Hnn by (destruct Hn as [(-> & _)|(-> & _)]; discriminate).
  assert (positive_total sc == a + b + m + n) as Ht.
  { rewrite positive_total_nonneg_values.
    - unfold sc, Qsum. simpl. ring.
    - unfold sc. cbn [dict_values map snd]. repeat constructor; lra. }
  assert (exists top, max_by_value sc = Ok top) as [top Htop]
      by (unfold sc; cbn [max_by_value]; eauto).
  destruct (max_by_value_ge sc top Htop) as [Hin Hge].
  assert (0 + a <= snd top) as Hta by (apply (Hge ("FBCore", 0 + a)); simpl; auto).
  assert (0 + b <= snd top) as Htb
      by (apply (Hge ("FBOrigin", 0 + b)); simpl; auto).
  assert (0 + m <= snd top) as Htm
      by (apply (Hge ("FBCommunity", 0 + m)); simpl; auto 6).
  assert (n <= snd top) as Htn
      by (apply (Hge ("Not-FB", n)); simpl; auto 6).
  assert (forall z : Z, (0 <= z)%Z -> float z == 0 -> z = 0%Z) as Hfz.
  { intros z _. unfold float, Qeq. simpl. lia. }
  assert (0 < snd top /\
          ((n = 1 /\ top = ("Not-FB", 1) /\ core_hits combined = 0%Z /\
            count_matches combined origin_keywords = 0%Z /\ m == 0)
           \/
           (n = 0 /\ fst top <> "Not-FB" /\
            ~ (core_hits combined = 0%Z /\
               count_matches combined origin_keywords = 0%Z /\ m == 0))))
    as [Hpos Hcase].
  { destruct Hn as [(-> & Hca & Hcb & Hcm)|(-> & Hnz)].
    - split; [lra|]. left. repeat split; try assumption.
      assert (a == 0) by (unfold a; now rewrite Hca).
      assert (b == 0) by (unfold b; now rewrite Hcb).
      destruct Hin as [<-|[<-|[<-|[<-|[]]]]]; cbn [snd] in *;
        try reflexivity; exfalso; lra.
    - assert (0 < a \/ 0 < b \/ 0 < m) as Hsome.
      { destruct (Qlt_le_dec 0 a) as [?|Ha0]; [auto|].
        destruct (Qlt_le_dec 0 b) as [?|Hb0]; [auto|].
        destruct (Qlt_le_dec 0 m) as [?|Hm0]; [auto|].
        exfalso. apply Hnz. repeat split.
        - apply Hfz; [apply core_hits_nonneg | fold a; lra].
        - apply Hfz; [apply count_matches_nonneg | fold b; lra].
        - lra. }
      assert (0 < snd top) as Hpos by (destruct Hsome as [?|[?|?]]; lra).
      split; [exact Hpos|]. right. repeat split; try assumption.
      destruct Hin as [<-|[<-|[<-|[<-|[]]]]]; cbn [fst snd] in *;
        discriminate. }
  assert (snd top <= positive_total sc) as Hle
      by (apply value_le_positive_total; now apply (in_map snd) in Hin).
  exists n, top. cbv zeta. fold sc. rewrite Htop. cbn [bind].
  split; [|split; [reflexivity | split; [exact Hpos | split; [|exact Hcase]]]].
  - f_equal. f_equal. destruct top as [k v]. cbn [fst snd] in *.
    apply normalize_share_in; [|exact Hin | lra].
    unfold sc, dict_keys. cbn [map fst].
    repeat constructor; simpl; intuition discriminate.
  - rewrite Ht. ring.
Qed.

(** X13: the type is Not-FB exactly when the three other accumulators are
    all zero; then the Not-FB accumulator is 1 and the confidence is 100,
    and otherwise the Not-FB accumulator stays at 0. *)
Theorem detect_type_notfb_iff (text name religion : string) :
  exists label sc conf,
    detect_type text name religion = Ok (label, sc, conf) /\
    (label = "Not-FB" <->
     core_hits (combined_text name text) = 0%Z /\
     count_matches (combined_text name text) origin_keywords = 0%Z /\
     comm_hits (combined_text name text) religion == 0) /\
    (label = "Not-FB" -> conf == 100 /\ dict_get sc "Not-FB" 0 = 1) /\
    (label <> "Not-FB" -> dict_get sc "Not-FB" 0 = 0).
Proof.
  destruct (detect_type_result text name religion)
    as (n & top & Hres & _ & _ & Ht & Hcase).
  cbv zeta in *. rewrite Hres. eexists _, _, _. split; [reflexivity|].
  destruct Hcase as [(-> & -> & Ha & Hb & Hm)|(-> & Hne & Hnz)]; cbn [fst snd].
  - split; [split; [auto | reflexivity]|]. split; [|contradiction].
    intros _. split; [|reflexivity].
    rewrite Ht, Ha, Hb, Hm. reflexivity.
  - split; [split; [contradiction | intros; now exfalso]|].
    split; [contradiction | reflexivity].
Qed.

Lemma detect_type_notfb_iff_witness :
  exists sc conf,
    detect_type "we run a web shop" "Acme Trading" "Other/Unknown"
    = Ok ("Not-FB", sc, conf) /\ conf == 100.
Proof.
  destruct (detect_type_notfb_iff "we run a web shop" "Acme Trading"
                                  "Other/Unknown")
    as (label & sc & conf & H & Hiff & Hconf & _).
  assert (label = "Not-FB") as Hl
      by (apply Hiff; repeat split; reflexivity).
  exists sc, conf. split; [now rewrite <- Hl | now apply Hconf].
Defined.

(** X14: the type is the first key, in the order FBCore, FBOrigin,
    FBCommunity, Not-FB, that holds the greatest accumulator; that
    accumulator is positive, and the confidence is its share of the sum of
    the four, a positive percentage. *)
Theorem detect_type_winner (text name religion : string) :
  exists label v sc conf pre post,
    detect_type text name religion = Ok (label, sc, conf) /\
    dict_keys sc = ["FBCore"; "FBOrigin"; "FBCommunity"; "Not-FB"] /\
    sc = (pre ++ (label, v) :: post)%list /\
    Forall (fun x => snd x < v) pre /\
    Forall (fun x => snd x <= v) post /\
    0 < v /\
    conf == (v / Qsum (dict_values sc)) * 100 /\
    0 < conf <= 100.
Proof.
  destruct (detect_type_result text name religion)
    as (n & top & Hres & Hmax & Hpos & Ht & Hcase).
  cbv zeta in *. rewrite Hres.
  set (sc := [("FBCore", _); ("FBOrigin", _); ("FBCommunity", _); ("Not-FB", n)])
    in *.
  pose proof (max_by_value_in _ _ Hmax) as Hin.
  assert (snd top <= positive_total sc) as Hle
      by (apply value_le_positive_total; now apply (in_map snd) in Hin).
  destruct (max_by_value_first sc top Hmax) as (pre & post & Heq & Hpre & Hpost).
  destruct top as [label v]. cbn [fst snd] in *.
  exists label, v, sc, ((v / positive_total sc) * 100), pre, post.
  split; [reflexivity|]. split; [reflexivity|]. split; [exact Heq|].
  split; [exact Hpre|]. split; [exact Hpost|]. split; [exact Hpos|].
  assert (Qsum (dict_values sc) == positive_total sc) as Hs.
  { rewrite Ht. unfold sc, Qsum. simpl. ring. }
  split; [now rewrite Hs|]. split.
  - apply share_pos; lra.
  - apply share_range; lra.
Qed.

Lemma core_marker_is_worship_place (w : string) :
  In w core_markers -> In w WORSHIP_PLACE_KEYWORDS.
Proof.
  intros [<-|[<-|[<-|[<-|[]]]]]; simpl; auto 6.
Qed.

(** X15: each marker of the FBCore bonus is also a worship-place keyword,
    so a combined text that holds one of them has an FBCore accumulator of
    at least 3 and is never typed Not-FB. *)
Theorem detect_type_marker_bonus (text name religion w : string) :
  In w ["parish"; "diocese"; "cathedral"; "chapel"] ->
  PyStr.contains (combined_text name text) w = true ->
  exists label sc conf,
    detect_type text name religion = Ok (label, sc, conf) /\
    3 <= dict_get sc "FBCore" 0 /\
    label <> "Not-FB".
Proof.
  intros Hin Hw. set (combined := combined_text name text) in *.
  assert (3 <= core_hits combined)%Z as H3.
  { rewrite core_hits_eq.
    assert (existsb (fun w => PyStr.contains combined w) core_markers = true)
      as -> by (apply existsb_exists; eauto).
    pose proof (count_matches_pos combined w WORSHIP_PLACE_KEYWORDS
                  (core_marker_is_worship_place w Hin) Hw).
    pose proof (count_matches_nonneg combined WORSHIP_PRACTICE_KEYWORDS).
    lia. }
  destruct (detect_type_result text name religion)
    as (n & top & Hres & _ & _ & _ & Hcase).
  cbv zeta in *. fold combined in Hres, Hcase. rewrite Hres.
  eexists _, _, _. split; [reflexivity|]. cbn [dict_get String.eqb Ascii.eqb Bool.eqb].
  split.
  - unfold float, Qle, Qplus. simpl. lia.
  - destruct Hcase as [(_ & _ & Ha & _)|(_ & Hne & _)]; [lia | exact Hne].
Qed.

Lemma detect_type_marker_bonus_witness :
  exists label sc conf,
    detect_type "" "Lakeside Chapel" "Other/Unknown" = Ok (label, sc, conf) /\
    3 <= dict_get sc "FBCore" 0 /\
    label <> "Not-FB".
Proof.
  apply (detect_type_marker_bonus "" "Lakeside Chapel" "Other/Unknown" "chapel").
  - simpl. auto.
  - reflexivity.
Defined.

(** X16: for a combined text without any worship, origin or community
    keyword but with a global-NGO keyword, the religion argument alone
    decides the type: FBCommunity with confidence 100 for Christianity,
    Islam, Judaism or Multi-faith, through the weight of three tenths, and
    Not-FB for any other religion. *)
Theorem detect_type_ngo_weight (text name religion : string) :
  core_hits (combined_text name text) = 0%Z ->
  count_matches (combined_text name text) origin_keywords = 0%Z ->
  count_matches (combined_text name text) LOCAL_COMMUNITY_KEYWORDS = 0%Z ->
  count_matches (combined_text name text) community_keywords = 0%Z ->
  (0 < count_matches (combined_text name text) GLOBAL_NGO_KEYWORDS)%Z ->
  exists label sc conf,
    detect_type text name religion = Ok (label, sc, conf) /\
    conf == 100 /\
    (is_named_religion religion = true ->
     label = "FBCommunity" /\
     dict_get sc "FBCommunity" 0
     == float (count_matches (combined_text name text) GLOBAL_NGO_KEYWORDS)
        * (3 # 10)) /\
    (is_named_religion religion = false -> label = "Not-FB").
Proof.
  set (combined := combined_text name text).
  intros Ha Hb Hl Hc Hngo.
  destruct (detect_type_result text name religion)
    as (n & top & Hres & Hmax & Hpos & Ht & Hcase).
  cbv zeta in *. fold combined in Hres, Hmax, Ht, Hcase. rewrite Hres.
  pose proof (max_by_value_in _ _ Hmax) as Hin.
  assert (0 < float (count_matches combined GLOBAL_NGO_KEYWORDS) * (3 # 10))
    as Hw by (apply Qmult_lt_0_compat; [now apply float_pos | reflexivity]).
  eexists _, _, _. split; [reflexivity|].
  unfold comm_hits in *. rewrite Ha, Hb, Hl, Hc in *.
  change (float (0 + 0)) with 0 in *. change (float 0) with 0 in *.
  set (w := float (count_matches combined GLOBAL_NGO_KEYWORDS) * (3 # 10)) in *.
  destruct (is_named_religion religion).
  - destruct Hcase as [(_ & _ & _ & _ & Hz)|(-> & Hne & _)]; [exfalso; lra|].
    assert (top = ("FBCommunity", 0 + (0 + w))) as ->.
    { destruct Hin as [<-|[<-|[<-|[<-|[]]]]]; cbn [fst snd] in *.
      - exfalso. lra.
      - exfalso. lra.
      - reflexivity.
      - exfalso. now apply Hne. }
    cbn [fst snd dict_get String.eqb Ascii.eqb Bool.eqb].
    split; [|split; [split; [reflexivity|] | discriminate]].
    + rewrite Ht. field. lra.
    + ring.
  - destruct Hcase as [(-> & -> & _)|(_ & _ & Hnz)];
      [|exfalso; apply Hnz; repeat split; reflexivity].
    cbn [fst snd]. split; [|split; [discriminate | reflexivity]].
    rewrite Ht. reflexivity.
Qed.

Lemma detect_type_ngo_weight_witness :
  exists label sc conf,
    detect_type "" "Global Relief Network" "Islam" = Ok (label, sc, conf) /\
    conf == 100 /\ label = "FBCommunity".
Proof.
  destruct (detect_type_ngo_weight "" "Global Relief Network" "Islam")
    as (label & sc & conf & H & Hc & Hnamed & _); try reflexivity.
  exists label, sc, conf. split; [exact H|]. split; [exact Hc|].
  apply Hnamed. reflexivity.
Defined.

(** ** Activity status *)

Lemma isspace_lower_char (c : ascii) :
  PyStr.isspace (PyStr.lower_char c) = PyStr.isspace c.
Proof.
  destruct c as [[] [] [] [] [] [] [] []]; reflexivity.
Qed.

Lemma blank_lower (s : string) : blank (PyStr.lower s) = blank s.
Proof.
  induction s as [|c s IH]; [reflexivity|].
  cbn [PyStr.lower blank]. now rewrite isspace_lower_char, IH.
Qed.

Lemma blank_app (a b : string) : blank (a ++ b) = blank a && blank b.
Proof.
  induction a as [|c a IH]; [reflexivity|].
  cbn [append blank]. now rewrite IH, andb_assoc.
Qed.

Lemma blank_combined (name text : string) :
  blank (combined_text name text) = blank name && blank text.
Proof.
  unfold combined_text. rewrite !blank_app, blank_lower. reflexivity.
Qed.

Lemma lstrip_cases (s : string) :
  (blank s = true /\ PyStr.lstrip s = "") \/
  (blank s = false /\
   exists c r, PyStr.lstrip s = String c r /\ PyStr.isspace c = false).
Proof.
  induction s as [|c s IH]; [now left|].
  cbn [blank PyStr.lstrip]. destruct (PyStr.isspace c) eqn:E.
  - exact IH.
  - right. split; [reflexivity|]. now exists c, s.
Qed.

Lemma rstrip_head (c : ascii) (s : string) :
  PyStr.isspace c = false -> exists r, PyStr.rstrip (String c s) = String c r.
Proof.
  intros E. cbn [PyStr.rstrip]. rewrite E.
  destruct (PyStr.rstrip s); eauto.
Qed.

(** What is left after [strip] is empty exactly for a blank string, and it
    starts with a character that is not white space otherwise. *)
Lemma strip_cases (s : string) :
  (blank s = true /\ PyStr.strip s = "") \/
  (blank s = false /\
   exists c r, PyStr.strip s = String c r /\ PyStr.isspace c = false).
Proof.
  unfold PyStr.strip.
  destruct (lstrip_cases s) as [[Hb ->]|[Hb (c & r & -> & Hc)]].
  - now left.
  - right. split; [exact Hb|].
    destruct (rstrip_head c r Hc) as [r' ->]. now exists c, r'.
Qed.

Lemma strip_truthy (s : string) :
  PyStr.truthy (PyStr.strip s) = negb (blank s).
Proof.
  destruct (strip_cases s) as [[-> ->]|[-> (c & r & -> & _)]]; reflexivity.
Qed.

Lemma blank_not_contains (s kw : string) :
  blank s = true -> starts_nonspace kw = true -> PyStr.contains s kw = false.
Proof.
  intros Hs Hkw. destruct kw as [|k kw]; [discriminate|].
  cbn [starts_nonspace] in Hkw. apply negb_true_iff in Hkw.
  induction s as [|c s IH]; [reflexivity|].
  cbn [blank] in Hs. apply andb_true_iff in Hs as [Hc Hs].
  rewrite contains_unfold. cbn [PyStr.startswith].
  destruct (Ascii.eqb_spec c k) as [->|_]; [congruence|].
  cbn [andb orb]. now apply IH.
Qed.

Lemma phrases_start_nonspace (p : string) :
  In p (INACTIVE_PHRASES ++ ARCHIVE_PHRASES) -> starts_nonspace p = true.
Proof.
  assert (forallb starts_nonspace (INACTIVE_PHRASES ++ ARCHIVE_PHRASES) = true)
    as H by reflexivity.
  rewrite forallb_forall in H. apply H.
Qed.

Lemma inactive_total_zero_iff (combined : string) :
  inactive_total combined = 0%Z <->
  (forall p, In p (INACTIVE_PHRASES ++ ARCHIVE_PHRASES) ->
             PyStr.contains combined p = false).
Proof.
  rewrite inactive_total_eq, <- count_matches_app.
  apply count_matches_zero_no_match.
Qed.

Lemma inactive_total_blank (combined : string) :
  blank combined = true -> inactive_total combined = 0%Z.
Proof.
  intros Hb. apply inactive_total_zero_iff. intros p Hp.
  apply blank_not_contains; [assumption | now apply phrases_start_nonspace].
Qed.

(** The three outcomes of [detect_activity]. *)
Lemma detect_activity_cases (text name : string) :
  ((0 < inactive_total (combined_text name text))%Z /\
   exists conf,
     detect_activity text name
     = Ok ("Inactive",
           [ ("Inactive", float (inactive_total (combined_text name text)));
             ("Likely active", 0); ("Unknown", 0) ],
           conf) /\
     conf == 100)
  \/
  (inactive_total (combined_text name text) = 0%Z /\
   blank (combined_text name text) = false /\
   exists conf,
     detect_activity text name
     = Ok ("Likely active",
           [ ("Inactive", 0); ("Likely active", 1); ("Unknown", 0) ],
           conf) /\
     conf == 100)
  \/
  (inactive_total (combined_text name text) = 0%Z /\
   blank (combined_text name text) = true /\
   exists conf,
     detect_activity text name
     = Ok ("Unknown",
           [ ("Inactive", 0); ("Likely active", 0); ("Unknown", 1) ],
           conf) /\
     conf == 100).
Proof.
  set (combined := combined_text name text).
  pose proof (inactive_total_nonneg combined) as Hnn.
  destruct (Z.eq_dec (inactive_total combined) 0) as [Hz|Hnz].
  - right.
    assert (detect_activity text name
            = if PyStr.truthy (PyStr.strip combined)
              then Ok ("Likely active",
                       [("Inactive", 0); ("Likely active", 1); ("Unknown", 0)],
                       dict_get
                         (normalize_scores
                            [("Inactive", 0); ("Likely active", 1);
                             ("Unknown", 0)])
                         "Likely active" 0)
              else Ok ("Unknown",
                       [("Inactive", 0); ("Likely active", 0); ("Unknown", 1)],
                       dict_get
                         (normalize_scores
                            [("Inactive", 0); ("Likely active", 0);
                             ("Unknown", 1)])
                         "Unknown" 0)) as ->.
    { unfold detect_activity. dict_simpl. rewrite !inactive_hits_sum.
      fold combined. rewrite Hz.
      change (float 0) with 0. change (Qgtb 0 0) with false. cbv iota.
      destruct (PyStr.truthy (PyStr.strip combined)); reflexivity. }
    rewrite strip_truthy.
    destruct (blank combined); cbn [negb]; [right | left];
      (split; [exact Hz|]); (split; [reflexivity|]);
      eexists; (split; [reflexivity|]); reflexivity.
  - left. assert (0 < inactive_total combined)%Z as Hpos by lia.
    split; [exact Hpos|].
    rewrite (detect_activity_inactive text name Hpos). fold combined.
    eexists. split; [reflexivity|].
    apply single_share; [now apply float_pos | reflexivity | reflexivity].
Qed.

(** X17: for every name and text the activity confidence is 100: the
    score map has the three status keys, the accumulator of the returned
    status is positive and the two others are 0. *)
Theorem detect_activity_one_hot (text name : string) :
  exists label sc conf,
    detect_activity text name = Ok (label, sc, conf) /\
    conf == 100 /\
    dict_keys sc = ["Inactive"; "Likely active"; "Unknown"] /\
    In label (dict_keys sc) /\
    0 < dict_get sc label 0 /\
    (forall k, k <> label -> dict_get sc k 0 == 0).
Proof.
  destruct (detect_activity_cases text name)
    as [(Hpos & conf & -> & Hc)|[(_ & _ & conf & -> & Hc)
        |(_ & _ & conf & -> & Hc)]];
    eexists _, _, conf; (split; [reflexivity|]); (split; [exact Hc|]);
    (split; [reflexivity|]); (split; [simpl; auto|]).
  - split; [cbn [dict_get String.eqb Ascii.eqb Bool.eqb]; now apply float_pos|].
    intros k Hk. cbn [dict_get].
    destruct (String.eqb_spec "Inactive" k) as [<-|_]; [contradiction|].
    destruct (String.eqb "Likely active" k); [reflexivity|].
    destruct (String.eqb "Unknown" k); reflexivity.
  - split; [reflexivity|].
    intros k Hk. cbn [dict_get].
    destruct (String.eqb "Inactive" k); [reflexivity|].
    destruct (String.eqb_spec "Likely active" k) as [<-|_]; [contradiction|].
    destruct (String.eqb "Unknown" k); reflexivity.
  - split; [reflexivity|].
    intros k Hk. cbn [dict_get].
    destruct (String.eqb "Inactive" k); [reflexivity|].
    destruct (String.eqb "Likely active" k); [reflexivity|].
    destruct (String.eqb_spec "Unknown" k) as [<-|_]; [contradiction|].
    reflexivity.
Qed.

(** X18: the status is Unknown exactly when the name and the text are both
    blank; a name with any visible character is never Unknown, whatever
    the text, a failed fetch included. *)
Theorem detect_activity_unknown_iff (text name : string) :
  exists label sc conf,
    detect_activity text name = Ok (label, sc, conf) /\
    (label = "Unknown" <-> blank name = true /\ blank text = true) /\
    (blank name = false -> label <> "Unknown").
Proof.
  pose proof (blank_combined name text) as Hb.
  pose proof (inactive_total_blank (combined_text name text)) as Hib.
  destruct (detect_activity_cases text name)
    as [(Hpos & conf & -> & _)|[(_ & Hnb & conf & -> & _)
        |(_ & Hbl & conf & -> & _)]];
    eexists _, _, conf; (split; [reflexivity|]).
  - assert (blank (combined_text name text) = false) as Hnb.
    { destruct (blank (combined_text name text)); [|reflexivity].
      specialize (Hib eq_refl). lia. }
    rewrite Hnb in Hb. symmetry in Hb. apply andb_false_iff in Hb.
    split; [split; [discriminate|]|discriminate].
    intros [H1 H2]. destruct Hb; congruence.
  - rewrite Hnb in Hb. symmetry in Hb. apply andb_false_iff in Hb.
    split; [split; [discriminate|]|discriminate].
    intros [H1 H2]. destruct Hb; congruence.
  - rewrite Hbl in Hb. symmetry in Hb. apply andb_true_iff in Hb.
    split; [split; [intros _; exact Hb | reflexivity]|].
    intros Hn. destruct Hb. congruence.
Qed.

Lemma detect_activity_unknown_iff_witness :
  exists label sc conf,
    detect_activity "" "Global Relief Network" = Ok (label, sc, conf) /\
    label <> "Unknown".
Proof.
  destruct (detect_activity_unknown_iff "" "Global Relief Network")
    as (label & sc & conf & H & _ & Hn).
  exists label, sc, conf. split; [exact H|]. apply Hn. reflexivity.
Defined.

(** X19: the status is Inactive exactly when one of the inactive or
    archive phrases occurs in the combined text, and it is Likely active
    exactly when none occurs and the combined text is not blank. *)
Theorem detect_activity_inactive_iff (text name : string) :
  exists label sc conf,
    detect_activity text name = Ok (label, sc, conf) /\
    (label = "Inactive" <->
     exists p, In p (INACTIVE_PHRASES ++ ARCHIVE_PHRASES) /\
               PyStr.contains (combined_text name text) p = true) /\
    (label = "Likely active" <->
     (forall p, In p (INACTIVE_PHRASES ++ ARCHIVE_PHRASES) ->
                PyStr.contains (combined_text name text) p = false) /\
     blank (combined_text name text) = false).
Proof.
  set (combined := combined_text name text).
  pose proof (inactive_total_zero_iff combined) as Hz.
  assert ((0 < inactive_total combined)%Z ->
          exists p, In p (INACTIVE_PHRASES ++ ARCHIVE_PHRASES) /\
                    PyStr.contains combined p = true) as Hex.
  { intros Hpos.
    destruct (existsb (PyStr.contains combined)
                      (INACTIVE_PHRASES ++ ARCHIVE_PHRASES)) eqn:E.
    - apply existsb_exists in E. exact E.
    - exfalso. assert (inactive_total combined = 0%Z); [|lia].
      apply Hz. intros p Hp.
      destruct (PyStr.contains combined p) eqn:Ep; [|reflexivity].
      assert (existsb (PyStr.contains combined)
                      (INACTIVE_PHRASES ++ ARCHIVE_PHRASES) = true)
        by (apply existsb_exists; eauto).
      congruence. }
  pose proof (detect_activity_cases text name) as Hcases.
  fold combined in Hcases.
  destruct Hcases
    as [(Hpos & conf & -> & _)|[(H0 & Hnb & conf & -> & _)
        |(H0 & Hbl & conf & -> & _)]];
    eexists _, _, conf; (split; [reflexivity|]).
  - split; [split; [intros _; now apply Hex | reflexivity]|].
    split; [discriminate|].
    intros [Hnone _]. apply Hz in Hnone. lia.
  - split.
    + split; [discriminate|].
      intros (p & Hp & Hc). rewrite (proj1 Hz H0 p Hp) in Hc. discriminate.
    + split; [intros _; split; [now apply Hz | exact Hnb] | reflexivity].
  - split.
    + split; [discriminate|].
      intros (p & Hp & Hc). rewrite (proj1 Hz H0 p Hp) in Hc. discriminate.
    + split; [discriminate|]. intros [_ Hnb]. congruence.
Qed.

Lemma detect_activity_inactive_iff_witness :
  exists sc conf,
    detect_activity "the charity was dissolved in 2019" "River Trust"
    = Ok ("Inactive", sc, conf).
Proof.
  destruct (detect_activity_inactive_iff
              "the charity was dissolved in 2019" "River Trust")
    as (label & sc & conf & H & Hiff & _).
  assert (label = "Inactive") as Hl.
  { apply Hiff. exists "was dissolved". split; [|reflexivity].
    unfold INACTIVE_PHRASES, ARCHIVE_PHRASES. simpl. auto 12. }
  exists sc, conf. now rewrite <- Hl.
Defined.

(** ** Text acquisition *)

Lemma str_app_empty_r (s : string) : s ++ "" = s.
Proof. induction s as [|c s IH]; simpl; [reflexivity | now rewrite IH]. Qed.

Lemma str_app_eq_empty (a b : string) : a ++ b = "" <-> a = "" /\ b = "".
Proof.
  destruct a; simpl; split; try intros [? ?]; try discriminate; auto.
Qed.

Lemma contains_refl (s : string) : PyStr.contains s s = true.
Proof.
  rewrite <- (str_app_empty_r s) at 1.
  exact (contains_app "" s "").
Qed.

(** A keyword of a part of a text is a keyword of the text. *)
Lemma contains_trans (s t kw : string) :
  PyStr.contains s t = true -> PyStr.contains t kw = true ->
  PyStr.contains s kw = true.
Proof.
  intros Hst Htk.
  apply contains_split in Hst as (p1 & q1 & ->).
  apply contains_split in Htk as (p2 & q2 & ->).
  replace (p1 ++ (p2 ++ kw ++ q2) ++ q1)
    with ((p1 ++ p2) ++ kw ++ (q2 ++ q1)) by now rewrite !str_app_assoc.
  apply contains_app.
Qed.

Section AcquisitionFacts.

Variable safe_get : string -> string.

Lemma probe_loop_app (base : string) (suffixes : list string) (acc : string) :
  fold_left (probe_step safe_get base) suffixes acc
  = acc ++ fold_left (probe_step safe_get base) suffixes "".
Proof.
  revert acc. induction suffixes as [|s l IH]; intros acc; cbn [fold_left].
  - now rewrite str_app_empty_r.
  - rewrite IH, (IH (probe_step safe_get base "" s)). unfold probe_step.
    destruct (PyStr.truthy (safe_get (base ++ s))).
    + now rewrite !str_app_assoc.
    + reflexivity.
Qed.

Lemma probe_loop_empty_iff (base : string) (suffixes : list string) :
  fold_left (probe_step safe_get base) suffixes "" = "" <->
  (forall suffix, In suffix suffixes -> safe_get (base ++ suffix) = "").
Proof.
  induction suffixes as [|s l IH]; cbn [fold_left].
  - split; [intros _ ? [] | reflexivity].
  - rewrite probe_loop_app, str_app_eq_empty, IH. unfold probe_step.
    destruct (safe_get (base ++ s)) eqn:E; cbn [PyStr.truthy append].
    + split.
      * intros [_ H] suffix [<-|Hin]; auto.
      * intros H. split; [reflexivity|]. intros suffix Hin. apply H. now right.
    + split; [intros [H _]; discriminate|].
      intros H. specialize (H s (or_introl eq_refl)). congruence.
Qed.

Lemma probe_loop_contains (base : string) (suffixes : list string)
      (suffix : string) :
  In suffix suffixes ->
  PyStr.contains (fold_left (probe_step safe_get base) suffixes "")
                 (safe_get (base ++ suffix)) = true.
Proof.
  induction suffixes as [|s l IH]; intros Hin; [contradiction|].
  cbn [fold_left]. rewrite probe_loop_app.
  destruct Hin as [->|Hin].
  - unfold probe_step.
    destruct (safe_get (base ++ suffix)) as [|c e];
      [apply contains_empty_kw|].
    cbn [PyStr.truthy].
    exact (contains_app " " (String c e) _).
  - specialize (IH Hin).
    apply contains_split in IH as (p & q & Heq). rewrite Heq.
    rewrite <- str_app_assoc. apply contains_app.
Qed.

Lemma fetch_url_eq (url : string) :
  PyStr.truthy url = true ->
  fetch_url safe_get url
  = safe_get (PyStr.strip url)
    ++ fold_left (probe_step safe_get (probe_base url)) probe_suffixes "".
Proof.
  intros H. unfold fetch_url. rewrite H. cbn [negb].
  exact (probe_loop_app (probe_base url) probe_suffixes _).
Qed.

(** X20: for an address that is not the empty string, the fetched text is
    empty exactly when the page and the four sub-pages all give nothing;
    a sub-page that answers makes the text non-empty even when the page
    itself fails. *)
Theorem fetch_url_empty_iff (url : string) :
  PyStr.truthy url = true ->
  (fetch_url safe_get url = "" <->
   safe_get (PyStr.strip url) = "" /\
   forall suffix, In suffix ["/about"; "/mission"; "/history"; "/governance"] ->
                  safe_get (probe_base url ++ suffix) = "").
Proof.
  intros H. rewrite (fetch_url_eq url H), str_app_eq_empty.
  rewrite probe_loop_empty_iff. reflexivity.
Qed.

(** X21: the fetched text starts with the text of the page and holds the
    text of each sub-page, so a keyword that occurs on any of the five
    pages occurs in the fetched text. *)
Theorem fetch_url_holds_pages (url : string) :
  PyStr.truthy url = true ->
  (exists rest, fetch_url safe_get url = safe_get (PyStr.strip url) ++ rest) /\
  (forall page kw,
      page = safe_get (PyStr.strip url) \/
      (exists suffix,
          In suffix ["/about"; "/mission"; "/history"; "/governance"] /\
          page = safe_get (probe_base url ++ suffix)) ->
      PyStr.contains page kw = true ->
      PyStr.contains (fetch_url safe_get url) kw = true).
Proof.
  intros H. rewrite (fetch_url_eq url H). split; [eauto|].
  intros page kw Hpage Hkw.
  apply (contains_trans _ page); [|exact Hkw].
  destruct Hpage as [->|(suffix & Hin & ->)].
  - apply contains_app_l, contains_refl.
  - pose proof (probe_loop_contains (probe_base url) probe_suffixes suffix Hin)
      as Hc.
    apply contains_split in Hc as (p & q & Heq). rewrite Heq.
    rewrite <- str_app_assoc. apply contains_app.
Qed.

End AcquisitionFacts.

Lemma fetch_url_empty_iff_witness :
  fetch_url (fun _ => "") "https://example.org/" = "".
Proof.
  apply (fetch_url_empty_iff (fun _ => "") "https://example.org/");
    [reflexivity|].
  split; [reflexivity | intros; reflexivity].
Defined.

Lemma fetch_url_holds_pages_witness :
  PyStr.contains
    (fetch_url (fun u => if String.eqb u "https://example.org/about"
                         then "our parish" else "")
               "https://example.org/")
    "parish" = true.
Proof.
  destruct (fetch_url_holds_pages
              (fun u => if String.eqb u "https://example.org/about"
                        then "our parish" else "")
              "https://example.org/" eq_refl) as [_ H].
  apply (H "our parish" "parish").
  - right. exists "/about". split; [simpl; auto | reflexivity].
  - reflexivity.
Defined.

Lemma drop_last_app_char (s : string) (c : ascii) :
  drop_last (s ++ String c "") = s.
Proof.
  induction s as [|x s IH]; [reflexivity|].
  cbn [append drop_last]. rewrite IH.
  destruct s; reflexivity.
Qed.

Lemma endswith_app (s suffix : string) : endswith (s ++ suffix) suffix = true.
Proof.
  induction s as [|x s IH]; cbn [append].
  - destruct suffix; cbn [endswith]; now rewrite String.eqb_refl.
  - cbn [endswith]. rewrite IH. apply orb_true_r.
Qed.

Lemma rstrip_app_nonspace (s : string) (c : ascii) :
  PyStr.isspace c = false ->
  PyStr.rstrip (s ++ String c "") = s ++ String c "".
Proof.
  intros Hc. induction s as [|x s IH]; cbn [append PyStr.rstrip].
  - now rewrite Hc.
  - rewrite IH. destruct s; reflexivity.
Qed.

(** An address that [strip] leaves as it is stays so with one more
    character that is not white space. *)
Lemma strip_fixed_app (u : string) (c : ascii) :
  PyStr.strip u = u -> PyStr.isspace c = false ->
  PyStr.strip (u ++ String c "") = u ++ String c "".
Proof.
  intros Hu Hc. unfold PyStr.strip.
  destruct (strip_cases u) as [[_ He]|[_ (x & r & Hx & Hsp)]].
  - rewrite Hu in He. subst u. cbn [append PyStr.lstrip]. rewrite Hc.
    cbn [PyStr.rstrip]. now rewrite Hc.
  - rewrite Hu in Hx. subst u. cbn [append PyStr.lstrip]. rewrite Hsp.
    exact (rstrip_app_nonspace (String x r) c Hc).
Qed.

(** X22: an address can be given with or without a final slash: for a
    stripped address that does not end in a slash, both forms try the
    same four sub-pages, and the fetched texts differ only by the text of
    the page itself. *)
Theorem fetch_url_trailing_slash (safe_get : string -> string) (u : string) :
  PyStr.truthy u = true ->
  PyStr.strip u = u ->
  endswith u "/" = false ->
  probe_base u = u /\
  probe_base (u ++ "/") = u /\
  exists extras,
    fetch_url safe_get u = safe_get u ++ extras /\
    fetch_url safe_get (u ++ "/") = safe_get (u ++ "/") ++ extras.
Proof.
  intros Ht Hs He.
  assert (PyStr.strip (u ++ "/") = u ++ "/") as Hs'
      by (apply strip_fixed_app; [assumption | reflexivity]).
  assert (probe_base u = u) as Hb
      by (unfold probe_base; now rewrite Hs, He).
  assert (probe_base (u ++ "/") = u) as Hb'.
  { unfold probe_base. rewrite Hs', endswith_app.
    apply drop_last_app_char. }
  split; [exact Hb|]. split; [exact Hb'|].
  exists (fold_left (probe_step safe_get u) probe_suffixes "").
  split.
  - rewrite fetch_url_eq by assumption. now rewrite Hs, Hb.
  - rewrite fetch_url_eq by (destruct u; [discriminate | reflexivity]).
    now rewrite Hs', Hb'.
Qed.

Lemma fetch_url_trailing_slash_witness :
  probe_base "https://example.org" = "https://example.org" /\
  probe_base ("https://example.org" ++ "/") = "https://example.org".
Proof.
  destruct (fetch_url_trailing_slash (fun _ => "") "https://example.org")
    as (H1 & H2 & _); try reflexivity.
  split; [exact H1 | exact H2].
Defined.

(** ** Entrypoint and presentation layer *)

Lemma classify_organization_fields
      (fetch : string -> string) (name url : string) :
  exists rl rs rc tl ts tc al asc ac,
    detect_religion (fetch url) name = Ok (rl, rs, rc) /\
    detect_type (fetch url) name rl = Ok (tl, ts, tc) /\
    detect_activity (fetch url) name = Ok (al, asc, ac) /\
    classify_organization fetch name url
    = Ok {| fb_type := tl;
            religion := rl;
            activity_status := al;
            confidence := {| conf_type := tc;
                             conf_religion := rc;
                             conf_activity := ac |};
            scores := {| scores_type := ts;
                         scores_religion := rs;
                         scores_activity := asc |};
            fetched_text_length := String.length (fetch url) |}.
Proof.
  destruct (detect_religion_total (fetch url) name) as (rl & rs & rc & Hr & _).
  destruct (detect_type_total (fetch url) name rl) as (tl & ts & tc & Ht & _).
  destruct (detect_activity_total (fetch url) name)
    as (al & asc & ac & Ha & _).
  exists rl, rs, rc, tl, ts, tc, al, asc, ac.
  repeat split; try assumption.
  unfold classify_organization. rewrite Hr. cbn [bind].
  rewrite Ht. cbn [bind]. rewrite Ha. reflexivity.
Qed.

Lemma Ok_triple_inj {A B C : Type} (a a' : A) (b b' : B) (c c' : C) :
  Ok (a, b, c) = Ok (a', b', c') -> a = a' /\ b = b' /\ c = c'.
Proof. intros H. inversion H. auto. Qed.

Lemma pill_style_high (s : Q) : 60 < s -> pill_style (Some s) = high_style.
Proof.
  intros H. unfold pill_style.
  assert (Qle_bool s 30 = false) as -> by (apply Qle_bool_false; lra).
  assert (Qle_bool s 60 = false) as -> by (apply Qle_bool_false; lra).
  reflexivity.
Qed.

Lemma pill_style_low (s : Q) : s <= 30 -> pill_style (Some s) = low_style.
Proof.
  intros H. unfold pill_style.
  assert (Qle_bool s 30 = true) as -> by now apply Qle_bool_iff.
  reflexivity.
Qed.

Lemma detect_religion_unknown_conf (text name label : string) (sc : dict) (conf : Q) :
  detect_religion text name = Ok (label, sc, conf) ->
  label = "Other/Unknown" -> conf = 0.
Proof.
  intros H ->.
  destruct (max_main_ok (combined_text name text)) as [top Htop].
  destruct (max_main_cases _ _ Htop) as (Hwhich & _).
  destruct (detect_religion_cases text name top Htop)
    as [(_ & _ & _ & Hres)|[(_ & Hres)|[(_ & _ & Hres)
        |[(_ & _ & _ & Hres)|(_ & _ & _ & _ & Hres)]]]];
    rewrite Hres in H; apply Ok_triple_inj in H as (H1 & H2 & H3);
    try discriminate H1; try (symmetry; assumption).
  destruct Hwhich as [-> | [-> | ->]]; discriminate H1.
Qed.

Lemma detect_type_notfb_conf (text name religion label : string) (sc : dict)
      (conf : Q) :
  detect_type text name religion = Ok (label, sc, conf) ->
  label = "Not-FB" -> conf == 100.
Proof.
  intros H ->.
  destruct (detect_type_result text name religion)
    as (n & top & Hres & _ & _ & Ht & Hcase).
  cbv zeta in *. rewrite Hres in H.
  apply Ok_triple_inj in H as (H1 & H2 & H3).
  destruct Hcase as [(-> & -> & Ha & Hb & Hm)|(_ & Hne & _)];
    [|contradiction].
  rewrite <- H3, Ht, Ha, Hb, Hm. reflexivity.
Qed.

Lemma detect_activity_conf (text name label : string) (sc : dict) (conf : Q) :
  detect_activity text name = Ok (label, sc, conf) ->
  conf == 100 /\ (blank name = false -> label <> "Unknown").
Proof.
  intros H. pose proof (blank_combined name text) as Hb.
  destruct (detect_activity_cases text name)
    as [(_ & c & Hres & Hc)|[(_ & _ & c & Hres & Hc)|(_ & Hbl & c & Hres & Hc)]];
    rewrite Hres in H; apply Ok_triple_inj in H as (<- & _ & <-);
    (split; [exact Hc|]); try discriminate.
  intros Hn. rewrite Hbl, Hn in Hb. discriminate Hb.
Qed.

(** X23: on the page the activity pill always has the high-confidence
    style, since the activity confidence is always 100; a religion
    Other/Unknown always has the low-confidence style, and a type Not-FB
    the high-confidence style. *)
Theorem classify_pill_styles (fetch : string -> string) (name url : string) :
  exists r,
    classify_organization fetch name url = Ok r /\
    pill_style (Some (conf_activity (confidence r))) = high_style /\
    (religion r = "Other/Unknown" ->
     pill_style (Some (conf_religion (confidence r))) = low_style) /\
    (fb_type r = "Not-FB" ->
     pill_style (Some (conf_type (confidence r))) = high_style).
Proof.
  destruct (classify_organization_fields fetch name url)
    as (rl & rs & rc & tl & ts & tc & al & asc & ac & Hr & Ht & Ha & ->).
  eexists. split; [reflexivity|].
  cbn [confidence conf_activity conf_religion conf_type religion fb_type].
  destruct (detect_activity_conf _ _ _ _ _ Ha) as [Hac _].
  split; [apply pill_style_high; rewrite Hac; reflexivity|]. split.
  - intros Hl. rewrite (detect_religion_unknown_conf _ _ _ _ _ Hr Hl).
    reflexivity.
  - intros Hl. apply pill_style_high.
    rewrite (detect_type_notfb_conf _ _ _ _ _ _ Ht Hl). reflexivity.
Qed.

Lemma classify_pill_styles_witness :
  exists r,
    classify_organization (fun _ => "") "Global Relief Network" "u" = Ok r /\
    pill_style (Some (conf_religion (confidence r))) = low_style.
Proof.
  destruct (classify_pill_styles (fun _ => "") "Global Relief Network" "u")
    as (r & Hr & _ & Hrel & _).
  exists r. split; [exact Hr|]. apply Hrel.
  vm_compute in Hr. injection Hr as <-. reflexivity.
Defined.

(** X24: the page runs the classifier exactly when the form was submitted
    with a name and an address that are not blank, and what it then shows
    is never the status Unknown: that branch of [detect_activity] cannot
    be reached from the page. *)
Theorem app_classify_never_unknown
        (fetch : string -> string) (submitted : bool) (org_name url : string) :
  (app_classify fetch submitted org_name url = None <->
   submitted = false \/ blank org_name = true \/ blank url = true) /\
  (forall res,
      app_classify fetch submitted org_name url = Some res ->
      exists r, res = Ok r /\
                activity_status r <> "Unknown" /\
                conf_activity (confidence r) == 100).
Proof.
  unfold app_classify. rewrite !strip_truthy. split.
  - destruct submitted, (blank org_name), (blank url); cbn [andb negb];
      split; try discriminate; auto;
      intros [H|[H|H]]; discriminate H.
  - intros res H.
    destruct (submitted && negb (blank org_name) && negb (blank url)) eqn:E;
      [|discriminate].
    injection H as <-.
    apply andb_true_iff in E as [E _]. apply andb_true_iff in E as [_ E].
    apply negb_true_iff in E.
    assert (blank (PyStr.strip org_name) = false) as Hnb.
    { destruct (strip_cases org_name) as [[Hb _]|[_ (c & r & -> & Hc)]];
        [congruence|].
      cbn [blank]. now rewrite Hc. }
    destruct (classify_organization_fields fetch (PyStr.strip org_name)
                                           (PyStr.strip url))
      as (rl & rs & rc & tl & ts & tc & al & asc & ac & _ & _ & Ha & ->).
    eexists. split; [reflexivity|]. cbn [activity_status confidence conf_activity].
    destruct (detect_activity_conf _ _ _ _ _ Ha) as [Hc Hl]. auto.
Qed.

Lemma app_classify_never_unknown_witness :
  exists r,
    app_classify (fun _ => "") true "  Global Relief Network " " u "
    = Some (Ok r) /\
    activity_status r <> "Unknown".
Proof.
  destruct (app_classify_never_unknown
              (fun _ => "") true "  Global Relief Network " " u ")
    as [_ H].
  destruct (H (classify_organization (fun _ => "") "Global Relief Network" "u")
              eq_refl) as (r & Hr & Hu & _).
  exists r. split; [now rewrite <- Hr | exact Hu].
Defined.
